(** * Hybrid memory of MLE-agent: fast store, slow store, coordinator

    A shallow embedding of [mle/utils/memory.py]: the LanceDB-backed fast
    store ([LanceDBMemory]), the mem0-backed slow store ([Mem0]) and the
    coordinator ([HybridMemory]) with its consolidation jobs.

    The two backing services, the embedding provider, the uuid generator
    and the timestamp parser are libraries outside the repository.  They
    appear here as section variables (embedding, nearest-neighbour search,
    uuid source, ISO parser) or as a small reference store (tables as a
    finite map from names to rows, the agent's memories as a list). *)

From stdpp Require Import base option list gmap strings pretty sorting.
From Stdlib Require Import ZArith QArith Lia Ascii String.

Close Scope Q_scope.
Open Scope string_scope.
Open Scope list_scope.

(** ** Python values, exceptions *)

(** The exceptions the module can raise on its own paths. *)
Inductive exn :=
| AssertionError
| TypeError
| ValueError
| KeyError
| AttributeError
| FileNotFoundError
| NotImplementedError.

#[global] Instance exn_eq_dec : EqDecision exn.
Proof. solve_decision. Defined.

(** Outcome of a Python expression: a value or a raised exception. *)
Inductive result (A : Type) :=
| Ok (a : A)
| Raise (e : exn).
Arguments Ok {A} a.
Arguments Raise {A} e.

Definition rbind {A B} (r : result A) (k : A -> result B) : result B :=
  match r with
  | Ok a => k a
  | Raise e => Raise e
  end.

(** A Python [float]: not-a-number, an infinity, or a finite value,
    given by the rational it denotes (every finite float is a
    rational). *)
Inductive pyfloat :=
| FNaN
| FInf (negative : bool)
| FFin (q : Q).

(** [a < b] on floats: the order of the denoted values, exact, and
    false as soon as one side is not-a-number. *)
Definition float_lt (a b : pyfloat) : bool :=
  match a, b with
  | FNaN, _ | _, FNaN => false
  | FInf na, FInf nb => na && negb nb
  | FInf na, FFin _ => na
  | FFin _, FInf nb => negb nb
  | FFin p, FFin q => negb (Qle_bool q p)
  end.

(** Metadata values: [None], booleans, numbers and strings.  Integers
    are unbounded, strings are the UTF-8 bytes of the Python [str]
    (bytewise order is code-point order).  Lists and dicts as values
    are left out. *)
Inductive pyval :=
| VNone
| VBool (b : bool)
| VInt (z : Z)
| VFloat (f : pyfloat)
| VStr (s : string).

(** The number a value is, if it is one: [bool] is a subclass of [int],
    and an [int] compares with a [float] by its exact value. *)
Definition numeric (v : pyval) : option pyfloat :=
  match v with
  | VBool b => Some (FFin (inject_Z (Z.b2z b)))
  | VInt z => Some (FFin (inject_Z z))
  | VFloat f => Some f
  | VNone | VStr _ => None
  end.

(** [a < b] on metadata values: defined between two numbers and between
    two strings, a [TypeError] otherwise, also on [None]. *)
Definition py_lt (a b : pyval) : result bool :=
  match a, b with
  | VInt x, VInt y => Ok (x <? y)%Z
  | VStr x, VStr y => Ok (String.ltb x y)
  | _, _ =>
      match numeric a, numeric b with
      | Some x, Some y => Ok (float_lt x y)
      | _, _ => Raise TypeError
      end
  end.

(** Truthiness of an optional string, as used by [x or y]. *)
Definition py_or (a b : option string) : option string :=
  match a with
  | Some s => if decide (s = "") then b else Some s
  | None => b
  end.

(** [l[:n]] for a Python integer [n]: a negative bound counts from the
    end of the list. *)
Definition slice_to {A} (n : Z) (l : list A) : list A :=
  if (0 <=? n)%Z then take (Z.to_nat n) l
  else take (List.length l - Z.to_nat (- n))%nat l.

(** ** [sorted(items, key=..., reverse=...)]

    Keys are computed first, for every element; then the list is sorted
    with [<] on the keys only.  The sort is stable; with [reverse] the
    list is reversed, sorted ascending and reversed again, which is how
    [list.sort] keeps ties in their original order.  An exception of the
    key function or of a comparison propagates. *)
Section py_sorted.
Context {A K : Type}.
Variable key : A -> result K.
Variable lt : K -> K -> result bool.

Fixpoint decorate (l : list A) : result (list (K * A)) :=
  match l with
  | [] => Ok []
  | x :: l' =>
      rbind (key x) (fun k =>
      rbind (decorate l') (fun d => Ok ((k, x) :: d)))
  end.

Fixpoint insert_sorted (x : K * A) (l : list (K * A)) : result (list (K * A)) :=
  match l with
  | [] => Ok [x]
  | y :: l' =>
      rbind (lt (fst y) (fst x)) (fun b =>
      if b then rbind (insert_sorted x l') (fun r => Ok (y :: r))
      else Ok (x :: y :: l'))
  end.

Fixpoint sort_asc (l : list (K * A)) : result (list (K * A)) :=
  match l with
  | [] => Ok []
  | x :: l' => rbind (sort_asc l') (insert_sorted x)
  end.

Definition sorted (reverse : bool) (l : list A) : result (list A) :=
  rbind (decorate l) (fun d =>
  rbind (if reverse then rbind (sort_asc (rev d)) (fun s => Ok (rev s))
         else sort_asc d) (fun s =>
  Ok (map snd s))).
End py_sorted.

(** ** Records of the two tiers *)

Abbreviation metadata := (gmap string pyval).

(** A row of a fast-tier table: the dict built in [LanceDBMemory.add]. *)
Record record (vector : Type) := mk_record {
  r_vector : vector;
  r_text : string;
  r_id : string;
  r_metadata : option metadata;
}.
Arguments mk_record {vector}.
Arguments r_vector {vector}.
Arguments r_text {vector}.
Arguments r_id {vector}.
Arguments r_metadata {vector}.

(** A slow-tier memory as [get_all] hands it out.  [updated_at],
    [created_at] and [metadata] may be [None]. *)
Record item := mk_item {
  i_id : string;
  i_memory : string;
  i_metadata : option metadata;
  i_created_at : option string;
  i_updated_at : option string;
}.

(** The [texts] argument of [add]: one string or a list of strings. *)
Inductive texts_arg :=
| TextsStr (s : string)
| TextsList (l : list string).

(** The [metadata] argument of [add]: [None], one dict, or a list whose
    entries are dicts or [None]. *)
Inductive metadata_arg :=
| MetaNone
| MetaDict (d : metadata)
| MetaList (l : list (option metadata)).

(** ** The collaborators the module consumes

    Everything the module calls but does not own: the embedding function
    chosen at construction, the nearest-neighbour search of a table
    ([table.search(q).limit(n).to_list()]), the uuid source, the slow
    client's similarity search, and [datetime.fromisoformat] with the
    order of [datetime] values.  An embedding call yields one vector per
    text.  A [datetime] is naive or aware of its time zone; [earlier] is
    its order among values of one kind: nothing is both earlier and
    later, and "not earlier" is transitive (ties are allowed: two aware
    values of one instant). *)
Class Providers := {
  vector : Type;
  compute_source_embeddings : list string -> list vector;
  embeddings_length :
    forall l, List.length (compute_source_embeddings l) = List.length l;
  table_search : vector -> Z -> list (record vector) -> list (record vector);
  uuid4 : nat -> string;
  client_search : string -> string -> Z -> list item -> list item;
  datetime : Type;
  fromisoformat : string -> result datetime;
  tz_aware : datetime -> bool;
  earlier : datetime -> datetime -> bool;
  earlier_asym : forall a b, earlier a b = true -> earlier b a = false;
  earlier_negtrans :
    forall a b c, earlier a b = false -> earlier b c = false ->
                  earlier a c = false;
}.

(** [a < b] on [datetime] values: a naive and an aware value do not
    compare. *)
Definition datetime_lt `{Providers} (a b : datetime) : result bool :=
  if Bool.eqb (tz_aware a) (tz_aware b) then Ok (earlier a b)
  else Raise TypeError.

(** The state behind a coordinator: the tables of the LanceDB connection
    of its fast store, the memories the mem0 client holds for the agent
    of its slow store, and how many uuids have been drawn so far. *)
Record world `{Providers} := mk_world {
  fast_tables : gmap string (list (record vector));
  agent_id : string;
  slow_items : list item;
  uuid_drawn : nat;
}.

(** ** Stateful computations that may raise

    A raised exception keeps the state reached so far: nothing is rolled
    back. *)
Definition M `{Providers} (A : Type) : Type := world -> result A * world.

Section monad.
Context `{Providers}.

Definition ret {A} (a : A) : M A := fun w => (Ok a, w).

Definition raise {A} (e : exn) : M A := fun w => (Raise e, w).

Definition bind {A B} (m : M A) (k : A -> M B) : M B :=
  fun w =>
    match m w with
    | (Ok a, w') => k a w'
    | (Raise e, w') => (Raise e, w')
    end.

Definition lift {A} (r : result A) : M A := fun w => (r, w).

Definition gets {A} (f : world -> A) : M A := fun w => (Ok (f w), w).

Definition modify (f : world -> world) : M unit := fun w => (Ok tt, f w).

(** [try: m  except e: handler] *)
Definition try_except {A} (m : M A) (e : exn) (handler : M A) : M A :=
  fun w =>
    match m w with
    | (Raise e', w') => if decide (e' = e) then handler w' else (Raise e', w')
    | (Ok a, w') => (Ok a, w')
    end.
End monad.

Notation "x <- m ;; k" := (bind m (fun x => k))
  (at level 100, m at next level, right associativity).
Notation "m ;;; k" := (bind m (fun _ => k))
  (at level 100, right associativity).

(** [for x in l: body(x)] *)
Fixpoint for_each `{Providers} {A} (l : list A) (body : A -> M unit) : M unit :=
  match l with
  | [] => ret tt
  | x :: l' => body x ;;; for_each l' body
  end.

(** ** Reference behaviour of the two backing clients *)
Section clients.
Context `{Providers}.

Definition set_fast_tables (f : gmap string (list (record vector)) ->
                                gmap string (list (record vector)))
    (w : world) : world :=
  mk_world _ (f (fast_tables w)) (agent_id w) (slow_items w) (uuid_drawn w).

Definition set_slow_items (f : list item -> list item) (w : world) : world :=
  mk_world _ (fast_tables w) (agent_id w) (f (slow_items w)) (uuid_drawn w).

(** [str(uuid.uuid4())] *)
Definition fresh_uuid : M string :=
  fun w => (Ok (uuid4 (uuid_drawn w)),
            mk_world _ (fast_tables w) (agent_id w) (slow_items w)
                     (S (uuid_drawn w))).

(** [client.table_names()] *)
Definition client_table_names : M (gset string) :=
  gets (fun w => dom (fast_tables w)).

(** [client.open_table(name)]: the handle of a table is its name; a
    missing table is a [FileNotFoundError]. *)
Definition client_open_table (name : string) : M string :=
  fun w => match fast_tables w !! name with
           | Some _ => (Ok name, w)
           | None => (Raise FileNotFoundError, w)
           end.

(** [client.create_table(name, data=data)]; the index that
    [table.create_fts_index("id")] then builds holds no data of its
    own. *)
Definition client_create_table (name : string) (data : list (record vector))
    : M string :=
  modify (set_fast_tables (fun t => <[name := data]> t)) ;;; ret name.

(** [table.add(data=data)] *)
Definition table_add (name : string) (data : list (record vector)) : M unit :=
  modify (set_fast_tables (fun t =>
    <[name := default [] (t !! name) ++ data]> t)).

(** [client.drop_table(name)] *)
Definition client_drop_table (name : string) : M unit :=
  modify (set_fast_tables (fun t => delete name t)).

(** [table.count_rows()] *)
Definition table_count_rows (name : string) : M nat :=
  gets (fun w => List.length (default [] (fast_tables w !! name))).

(** [table.search(query).limit(n).to_list()] *)
Definition table_search_list (name : string) (q : vector) (n : Z)
    : M (list (record vector)) :=
  gets (fun w => table_search q n (default [] (fast_tables w !! name))).

(** [client.get_all(agent_id=..., filters=None, limit=n)["results"]]:
    the first [n] memories of the agent; reading changes nothing. *)
Definition client_get_all (agent : string) (limit : Z) : M (list item) :=
  gets (fun w => take (Z.to_nat limit) (slow_items w)).

(** [client.reset()] *)
Definition client_reset : M unit :=
  modify (set_slow_items (fun _ => [])).
End clients.

(** A message of a conversation: a dict with keys such as [role] and
    [content]. *)
Abbreviation message := (gmap string string).

(** ** Further services of the two backing clients

    The index search of a table ([table.search(query_type="fts")],
    optionally narrowed by [.where(filter)] and [.limit(n)], then
    [.to_list()]), the evaluation of an SQL filter text on a row, and the
    slow client's [add], whose decisions (what to extract, insert, update
    or delete) are its own.  A search hands out rows of the table only;
    under a filter, rows that satisfy it; under a limit [n >= 0], at most
    [n] rows. *)
Class Services `{Providers} := {
  fts_search :
    option string -> option Z -> list (record vector) -> list (record vector);
  sql_where : string -> record vector -> bool;
  fts_search_rows :
    forall p n table r, r ∈ fts_search p n table -> r ∈ table;
  fts_search_where :
    forall p n table r, r ∈ fts_search (Some p) n table -> sql_where p r = true;
  fts_search_limit :
    forall p n table, (0 <= n)%Z ->
      List.length (fts_search p (Some n) table) <= Z.to_nat n;
  add_answer : Type;
  client_add :
    list message -> option metadata -> option string -> bool -> string ->
    list item -> add_answer * list item;
}.

Section more_clients.
Context `{Services}.

(** [table.search(query_type="fts")[.where(p)][.limit(n)].to_list()] *)
Definition table_fts (name : string) (p : option string) (n : option Z)
    : M (list (record vector)) :=
  gets (fun w => fts_search p n (default [] (fast_tables w !! name))).

(** [table.delete(p)]: the rows that satisfy the filter go. *)
Definition table_delete (name : string) (p : string) : M unit :=
  modify (set_fast_tables (fun t =>
    match t !! name with
    | Some table => <[name := filter (fun r => sql_where p r = false) table]> t
    | None => t
    end)).

(** [client.add(messages, metadata=..., prompt=..., infer=..., agent_id=...)] *)
Definition client_add_call (messages : list message) (md : option metadata)
    (prompt : option string) (infer : bool) (agent : string) : M add_answer :=
  fun w =>
    let '(answer, items) :=
      client_add messages md prompt infer agent (slow_items w) in
    (Ok answer, set_slow_items (fun _ => items) w).
End more_clients.

(** [d[k]]: a missing key is a [KeyError]. *)
Definition getitem {V} (d : gmap string V) (k : string) : result V :=
  match d !! k with
  | Some v => Ok v
  | None => Raise KeyError
  end.

Notation "x <-? r ;; k" := (rbind r (fun x => k))
  (at level 100, r at next level, right associativity).

(** [name or default] for an optional table name. *)
Definition name_or (name : option string) (dflt : string) : string :=
  match name with
  | Some s => if decide (s = "") then dflt else s
  | None => dflt
  end.

(** ** The fast store: [class LanceDBMemory] *)
Module LanceDBMemory.
Section methods.
Context `{Providers}.

Definition db_name : string := ".mle".
Definition table_name : string := "memory".

Definition _open_table (name : option string) : M (option string) :=
  let name := name_or name table_name in
  try_except (table <- client_open_table name ;; ret (Some table))
             FileNotFoundError (ret None).

(** The comprehension over [zip(ids, texts, embeds, metadata)]: it
    stops with the shortest of the four. *)
Fixpoint build_data (ids texts : list string) (embeds : list vector)
    (metas : list (option metadata)) : list (record vector) :=
  match ids, texts, embeds, metas with
  | idx :: ids', text :: texts', embed :: embeds', meta :: metas' =>
      mk_record embed text idx meta :: build_data ids' texts' embeds' metas'
  | _, _, _, _ => []
  end.

(** [[str(uuid.uuid4()) for _ in range(n)]] *)
Fixpoint fresh_uuids (n : nat) : M (list string) :=
  match n with
  | O => ret []
  | S n' => u <- fresh_uuid ;; us <- fresh_uuids n' ;; ret (u :: us)
  end.

Definition add (texts : texts_arg) (metadata : metadata_arg)
    (name : option string) (ids : option (list string)) : M (list string) :=
  let texts := match texts with
               | TextsStr s => [s]
               | TextsList l => l
               end in
  metadata <- match metadata with
              | MetaNone => ret (replicate (List.length texts) None)
              | MetaDict d => ret [Some d]
              | MetaList l =>
                  if decide (List.length texts = List.length l) then ret l
                  else raise AssertionError
              end ;;
  let embeds := compute_source_embeddings texts in
  let name := name_or name table_name in
  ids <- match ids with
         | Some (i :: ids') => ret (i :: ids')
         | _ => fresh_uuids (List.length texts)
         end ;;
  let data := build_data ids texts embeds metadata in
  names <- client_table_names ;;
  (if decide (name ∈ names) then
     t <- _open_table (Some name) ;;
     match t with
     | Some table => table_add table data
     | None => raise AttributeError
     end
   else
     client_create_table name data ;;; ret tt) ;;;
  ret ids.

Definition query (query_texts : list string) (name : option string)
    (n_results : Z) : M (list (list (record vector))) :=
  t <- _open_table name ;;
  match t with
  | None => ret []
  | Some table =>
      let query_embeds := compute_source_embeddings query_texts in
      (fix each (qs : list vector) : M (list (list (record vector))) :=
         match qs with
         | [] => ret []
         | q :: qs' =>
             r <- table_search_list table q n_results ;;
             rs <- each qs' ;;
             ret (r :: rs)
         end) query_embeds
  end.

(** [True] for a missing table, else what [client.drop_table] returns,
    which is [None]. *)
Definition drop (name : option string) : M (option bool) :=
  let name := name_or name table_name in
  t <- _open_table (Some name) ;;
  match t with
  | None => ret (Some true)
  | Some _ => client_drop_table name ;;; ret None
  end.

Definition count (name : option string) : M nat :=
  t <- _open_table name ;;
  match t with
  | None => ret O
  | Some table => table_count_rows table
  end.

Definition reset : M unit :=
  drop None ;;; ret tt.
End methods.

Section index_methods.
Context `{Services}.

(** The embedding function [__init__] picks from the configuration. *)
Inductive text_embedding :=
| OpenAIEmbedding (api_key : string)
| SentenceTransformers (name : string).

Definition __init__ (config : gmap string string) : result text_embedding :=
  platform <-? getitem config "platform" ;;
  if decide (platform = "OpenAI") then
    api_key <-? getitem config "api_key" ;;
    Ok (OpenAIEmbedding api_key)
  else
    Ok (SentenceTransformers "sentence-transformers/paraphrase-MiniLM-L6-v2").

Definition list_all_keys (name : option string) : M (list string) :=
  t <- _open_table name ;;
  match t with
  | None => ret []
  | Some table =>
      hits <- table_fts table None None ;;
      ret (map r_id hits)
  end.

Definition get (record_id : string) (name : option string)
    : M (list (record vector)) :=
  t <- _open_table name ;;
  match t with
  | None => ret []
  | Some table =>
      table_fts table (Some ("id = '" +:+ record_id +:+ "'")) (Some 1%Z)
  end.

Definition get_by_metadata (key value : string) (name : option string)
    (n_results : Z) : M (list (record vector)) :=
  t <- _open_table name ;;
  match t with
  | None => ret []
  | Some table =>
      table_fts table (Some ("metadata." +:+ key +:+ " = '" +:+ value +:+ "'"))
                (Some n_results)
  end.

(** [True] for a missing table, else what [table.delete] returns, which
    is no boolean of this module's choosing ([None] here). *)
Definition delete (record_id : string) (name : option string)
    : M (option bool) :=
  t <- _open_table name ;;
  match t with
  | None => ret (Some true)
  | Some table =>
      table_delete table ("id = '" +:+ record_id +:+ "'") ;;; ret None
  end.

Definition delete_by_metadata (key value : string) (name : option string)
    : M (option bool) :=
  t <- _open_table name ;;
  match t with
  | None => ret (Some true)
  | Some table =>
      table_delete table ("metadata." +:+ key +:+ " = '" +:+ value +:+ "'") ;;;
      ret None
  end.
End index_methods.
End LanceDBMemory.

(** ** The slow store: [class Mem0] *)
Module Mem0.
Section methods.
Context `{Providers}.

(** The dict [client.get_all] answers with. *)
Record get_all_response := { results : list item }.

(** The body calls [client.search] and ends without a [return]: the
    hits are computed and dropped, the call evaluates to [None]. *)
Definition query (query_text : string) (n_results : Z)
    : M (option (list item)) :=
  ag <- gets agent_id ;;
  _hits <- gets (fun w => client_search ag query_text n_results (slow_items w)) ;;
  ret None.

Definition get_all (n_results : Z) : M get_all_response :=
  ag <- gets agent_id ;;
  r <- client_get_all ag n_results ;;
  ret {| results := r |}.

Definition reset : M unit := client_reset.
End methods.

Section write_methods.
Context `{Services}.

Definition add (messages : list message) (md : option metadata)
    (prompt : option string) (infer : bool) : M add_answer :=
  ag <- gets agent_id ;;
  client_add_call messages md prompt infer ag.
End write_methods.
End Mem0.

(** ** The coordinator: [class HybridMemory] *)
Module HybridMemory.
Section methods.
Context `{Providers}.

(** An entry of the list [query] answers with: a result list of the
    fast store, or an element taken from the slow store's answer. *)
Inductive entry :=
| FastResults (rows : list (record vector))
| SlowResult (hit : item).

(** [results.extend(x)]: [None] is not iterable. *)
Definition extend (results : list entry) (x : option (list item))
    : M (list entry) :=
  match x with
  | None => raise TypeError
  | Some hits => ret (results ++ map SlowResult hits)
  end.

Definition query (query : string) (n_results : Z) (fast_query : bool)
    : M (list entry) :=
  results <- LanceDBMemory.query [query] None n_results ;;
  let results := map FastResults results in
  if negb fast_query then
    slow <- Mem0.query query n_results ;;
    extend results slow
  else ret results.

Definition reset (only_reset_slow_memory : bool) : M unit :=
  Mem0.reset ;;;
  if negb only_reset_slow_memory then LanceDBMemory.reset else ret tt.

(** [datetime.fromisoformat(x.get("updated_at") or x.get("created_at"))];
    [fromisoformat(None)] is a [TypeError]. *)
Definition timestamp_key (x : item) : result datetime :=
  match py_or (i_updated_at x) (i_created_at x) with
  | Some s => fromisoformat s
  | None => Raise TypeError
  end.

(** [x["metadata"].get(metadata_key)]; [None] has no [get]. *)
Definition metadata_field (metadata_key : string) (x : item) : result pyval :=
  match i_metadata x with
  | Some m => Ok (default VNone (m !! metadata_key))
  | None => Raise AttributeError
  end.

Definition last_n_consolidate (n : Z) (limit : Z) : M (list item) :=
  r <- Mem0.get_all limit ;;
  let items := Mem0.results r in
  items <- lift (sorted timestamp_key datetime_lt true items) ;;
  let last_n_items := slice_to n items in
  for_each last_n_items (fun item =>
    LanceDBMemory.add (TextsList [i_memory item]) MetaNone None None ;;;
    ret tt) ;;;
  ret last_n_items.

Definition top_k_consolidate (k : Z) (metadata_key : string)
    (reverse : bool) (limit : Z) : M (list item) :=
  r <- Mem0.get_all limit ;;
  let items := Mem0.results r in
  items <- lift (sorted (metadata_field metadata_key) py_lt reverse items) ;;
  let topk_items := slice_to k items in
  for_each topk_items (fun item =>
    LanceDBMemory.add (TextsList [i_memory item]) MetaNone None None ;;;
    ret tt) ;;;
  ret topk_items.

Definition prompt_based_consolidate (prompt : string) : M unit :=
  raise NotImplementedError.

(** The loop both consolidations end with, on its own. *)
Definition push (items : list item) : M unit :=
  for_each items (fun item =>
    LanceDBMemory.add (TextsList [i_memory item]) MetaNone None None ;;;
    ret tt).
End methods.

Section write_methods.
Context `{Services}.

(** [infer=prompt is not None] *)
Definition add (messages : list message) (md : option metadata)
    (prompt : option string) : M add_answer :=
  Mem0.add messages md prompt
    (match prompt with Some _ => true | None => false end).
End write_methods.
End HybridMemory.

(** ** The model loader: [mle/model/__init__.py] *)
Module MleModel.
Definition MODEL_OLLAMA : string := "Ollama".
Definition MODEL_OPENAI : string := "OpenAI".
Definition MODEL_CLAUDE : string := "Claude".
Definition MODEL_MISTRAL : string := "MistralAI".
Definition MODEL_DEEPSEEK : string := "DeepSeek".
Definition MODEL_GEMINI : string := "Gemini".
Definition MODEL_VLLM : string := "vLLM".

(** The provider adapters, as the constructor calls [load_model] makes. *)
Inductive Model :=
| OllamaModel (model : option string) (host_url : option string)
| OpenAIModel (api_key : string) (model : option string)
| ClaudeModel (api_key : string) (model : option string)
| MistralModel (api_key : string) (model : option string)
| DeepSeekModel (api_key : string) (model : option string)
| GeminiModel (api_key : string) (model : option string)
| vLLMModel (base_url : string) (model : option string).

(** What [load_model] returns: the model (or [None]) wrapped in an
    [ObservableModel], or as it is. *)
Inductive loaded :=
| ObservableModel (model : option Model)
| Bare (model : option Model).

Section load.
Variable get_config : string -> gmap string string.

Definition load_model (project_dir : string) (model_name : option string)
    (observable : bool) : result loaded :=
  let config := get_config project_dir in
  let model := None in
  platform <-? getitem config "platform" ;;
  model <-? (if decide (platform = MODEL_OLLAMA) then
               let host_url := config !! "base_url" in
               Ok (Some (OllamaModel model_name host_url))
             else Ok model) ;;
  platform <-? getitem config "platform" ;;
  model <-? (if decide (platform = MODEL_OPENAI) then
               api_key <-? getitem config "api_key" ;;
               Ok (Some (OpenAIModel api_key model_name))
             else Ok model) ;;
  platform <-? getitem config "platform" ;;
  model <-? (if decide (platform = MODEL_CLAUDE) then
               api_key <-? getitem config "api_key" ;;
               Ok (Some (ClaudeModel api_key model_name))
             else Ok model) ;;
  platform <-? getitem config "platform" ;;
  model <-? (if decide (platform = MODEL_MISTRAL) then
               api_key <-? getitem config "api_key" ;;
               Ok (Some (MistralModel api_key model_name))
             else Ok model) ;;
  platform <-? getitem config "platform" ;;
  model <-? (if decide (platform = MODEL_DEEPSEEK) then
               api_key <-? getitem config "api_key" ;;
               Ok (Some (DeepSeekModel api_key model_name))
             else Ok model) ;;
  platform <-? getitem config "platform" ;;
  model <-? (if decide (platform = MODEL_GEMINI) then
               api_key <-? getitem config "api_key" ;;
               Ok (Some (GeminiModel api_key model_name))
             else Ok model) ;;
  platform <-? getitem config "platform" ;;
  model <-? (if decide (platform = MODEL_VLLM) then
               Ok (Some (vLLMModel
                           (default "http://localhost:8000/v1"
                                    (config !! "base_url"))
                           model_name))
             else Ok model) ;;
  if observable then Ok (ObservableModel model) else Ok (Bare model).
End load.

(** The platform an adapter serves, the model name it was given, and
    the model inside a loaded value. *)
Definition platform_of (m : Model) : string :=
  match m with
  | OllamaModel _ _ => MODEL_OLLAMA
  | OpenAIModel _ _ => MODEL_OPENAI
  | ClaudeModel _ _ => MODEL_CLAUDE
  | MistralModel _ _ => MODEL_MISTRAL
  | DeepSeekModel _ _ => MODEL_DEEPSEEK
  | GeminiModel _ _ => MODEL_GEMINI
  | vLLMModel _ _ => MODEL_VLLM
  end.

Definition model_name_of (m : Model) : option string :=
  match m with
  | OllamaModel n _ | OpenAIModel _ n | ClaudeModel _ n | MistralModel _ n
  | DeepSeekModel _ n | GeminiModel _ n | vLLMModel _ n => n
  end.

Definition wrapped (l : loaded) : option Model :=
  match l with
  | ObservableModel m | Bare m => m
  end.

Definition platforms : list string :=
  [MODEL_OLLAMA; MODEL_OPENAI; MODEL_CLAUDE; MODEL_MISTRAL; MODEL_DEEPSEEK;
   MODEL_GEMINI; MODEL_VLLM].

Definition keyed_platforms : list string :=
  [MODEL_OPENAI; MODEL_CLAUDE; MODEL_MISTRAL; MODEL_DEEPSEEK; MODEL_GEMINI].
End MleModel.

(** ** The summarizer: [class SummaryAgent]

    The two prompt texts of [__init__], the GitHub integration, the
    model's [query] (called with the chat history; its other arguments are
    constants) and [json.loads] are parameters. *)
Module SummaryAgent.
Record chat := mk_chat { role : string; content : string }.

Record issue := mk_issue {
  title : string;
  author : string;
  state : string;
  created_at : string;
}.

Record agent := mk_agent {
  github_repo : string;
  chat_history : list chat;
}.

Definition nl : string := String (ascii_of_nat 10) EmptyString.

Section methods.
Variables sys_prompt json_mode_prompt : string.
Variable get_readme : string -> string.
Variable get_issues : string -> bool -> list issue.
Variable get_structure : string -> bool -> list string.
Variable model_query : list chat -> result string.
Variable json : Type.
Variable json_loads : string -> result json.

Definition __init__ (repo : string) : agent :=
  mk_agent repo [mk_chat "system" (sys_prompt +:+ json_mode_prompt)].

Definition process_knowledge (a : agent) : string :=
  let info_str :=
    nl +:+ "        GITHUB REPO: " +:+ github_repo a +:+ nl +:+ "        " in
  let readme_content := get_readme (github_repo a) in
  let issues := get_issues (github_repo a) true in
  let repo_files := get_structure (github_repo a) false in
  let info_str :=
    info_str +:+ nl +:+ nl +:+ "        README CONTENT:" +:+ nl +:+
    "        " +:+ readme_content +:+ nl +:+ nl +:+
    "        ISSUE LIST:" +:+ nl +:+ "        " in
  let info_str :=
    foldl (fun acc i =>
             acc +:+ nl +:+ nl +:+
             "            Title: " +:+ title i +:+ nl +:+
             "            Author: " +:+ author i +:+ nl +:+
             "            State: " +:+ state i +:+ nl +:+
             "            Created At: " +:+ created_at i +:+ nl +:+
             "            ") info_str issues in
  let info_str :=
    info_str +:+ nl +:+ nl +:+ "        PROJECT STRUCTURE:" +:+ nl +:+
    "        " in
  foldl (fun acc file =>
           acc +:+ nl +:+ "            " +:+ file +:+ nl +:+ "            ")
        info_str repo_files.

(** A raised exception leaves the history as far as it was extended. *)
Definition summarize (a : agent) : result json * agent :=
  let a := mk_agent (github_repo a)
             (chat_history a ++ [mk_chat "user" (process_knowledge a)]) in
  match model_query (chat_history a) with
  | Raise e => (Raise e, a)
  | Ok text =>
      let a := mk_agent (github_repo a)
                 (chat_history a ++ [mk_chat "assistant" text]) in
      (json_loads text, a)
  end.

(** [k] calls of [summarize] in a row, whatever each one ended with. *)
Fixpoint summarize_times (k : nat) (a : agent) : agent :=
  match k with
  | O => a
  | S k' => summarize_times k' (snd (summarize a))
  end.
End methods.
End SummaryAgent.

(** ** An instance of the collaborators, to run the model

    Vectors are one number per text (its length), a search returns the
    first [n] rows of the table, the k-th uuid drawn is ["uuid-k"], and
    [fromisoformat] is the date-only form [YYYY-MM-DD] of the ISO format
    (any other string is a [ValueError]), dates compared as naive values:
    year, month, day in this order. *)
Module Demo.
Definition digit (c : ascii) : option Z :=
  let n := Z.of_nat (nat_of_ascii c) in
  if ((48 <=? n) && (n <=? 57))%Z then Some (n - 48)%Z else None.

Definition is_leap (y : Z) : bool :=
  ((y mod 4 =? 0) && (negb (y mod 100 =? 0) || (y mod 400 =? 0)))%Z.

Definition days_in_month (y m : Z) : Z :=
  if (m =? 2)%Z then (if is_leap y then 29 else 28)%Z
  else if ((m =? 4) || (m =? 6) || (m =? 9) || (m =? 11))%Z then 30%Z
  else 31%Z.

Definition number (ds : list ascii) : option Z :=
  foldl (fun acc c =>
           match acc, digit c with
           | Some a, Some d => Some (10 * a + d)%Z
           | _, _ => None
           end) (Some 0%Z) ds.

Definition date : Type := Z * Z * Z.

Definition parse_date (s : string) : result date :=
  match list_ascii_of_string s with
  | [y1; y2; y3; y4; s1; m1; m2; s2; d1; d2] =>
      match number [y1; y2; y3; y4], number [m1; m2], number [d1; d2] with
      | Some y, Some m, Some d =>
          if (Ascii.eqb s1 "-" && Ascii.eqb s2 "-" &&
              (1 <=? y)%Z && (1 <=? m)%Z && (m <=? 12)%Z &&
              (1 <=? d)%Z && (d <=? days_in_month y m)%Z)%bool
          then Ok (y, m, d)
          else Raise ValueError
      | _, _, _ => Raise ValueError
      end
  | _ => Raise ValueError
  end.

Definition ordinal (d : date) : Z :=
  let '(y, m, dd) := d in (y * 512 + m * 32 + dd)%Z.

Definition date_earlier (a b : date) : bool :=
  (ordinal a <? ordinal b)%Z.

Definition date_earlier_asym (a b : date)
    : date_earlier a b = true -> date_earlier b a = false :=
  fun Hab => proj2 (Z.ltb_ge (ordinal b) (ordinal a))
               (Z.lt_le_incl _ _ (proj1 (Z.ltb_lt _ _) Hab)).

Definition date_earlier_negtrans (a b c : date)
    : date_earlier a b = false -> date_earlier b c = false ->
      date_earlier a c = false :=
  fun Hab Hbc => proj2 (Z.ltb_ge (ordinal a) (ordinal c))
                   (Z.le_trans _ _ _ (proj1 (Z.ltb_ge _ _) Hbc)
                                     (proj1 (Z.ltb_ge _ _) Hab)).

Definition uuid (k : nat) : string := "uuid-" +:+ pretty k.

#[local] Instance providers : Providers := {|
  vector := nat;
  compute_source_embeddings := map String.length;
  embeddings_length := fun l => length_map String.length l;
  table_search := fun _ n rows => take (Z.to_nat n) rows;
  uuid4 := uuid;
  client_search := fun _ _ n items => take (Z.to_nat n) items;
  datetime := date;
  fromisoformat := parse_date;
  tz_aware := fun _ => false;
  earlier := date_earlier;
  earlier_asym := date_earlier_asym;
  earlier_negtrans := date_earlier_negtrans;
|}.

Definition dated (id text : string) (updated : string) : item :=
  mk_item id text None (Some "2023-12-31") (Some updated).

Definition ranked (id text : string) (priority : Z) : item :=
  mk_item id text (Some {[ "priority" := VInt priority ]}) None None.


Definition empty_world (items : list item) : world :=
  mk_world providers ∅ "default" items 0.
End Demo.

(** ** An instance of the further services

    A filter is satisfied by the rows whose id it names ([id = '...']), a
    search scans the table in order, and the slow client stores every
    message as a raw memory. *)
Module DemoServices.
Definition demo_where (p : string) (r : record nat) : bool :=
  String.eqb p ("id = '" +:+ r_id r +:+ "'").

Definition demo_search (p : option string) (n : option Z)
    (table : list (record nat)) : list (record nat) :=
  let hits := match p with
              | Some f => filter (fun r => demo_where f r = true) table
              | None => table
              end in
  match n with
  | Some k => take (Z.to_nat k) hits
  | None => hits
  end.

Definition demo_add (messages : list message) (md : option metadata)
    (prompt : option string) (infer : bool) (agent : string)
    (items : list item) : unit * list item :=
  (tt, items ++ map (fun m => mk_item "" (default "" (m !! "content")) md
                                      None None) messages).

#[local] Instance services : @Services Demo.providers.
Proof.
  refine (@Build_Services Demo.providers demo_search demo_where _ _ _
            unit demo_add).
  - intros p n table r Hr. unfold demo_search in Hr.
    assert (r ∈ match p with
                | Some f => filter (fun r => demo_where f r = true) table
                | None => table
                end) as Hin.
    { destruct n; [|exact Hr]. eapply subseteq_take, Hr. }
    destruct p; [|exact Hin]. apply list_elem_of_filter in Hin. apply Hin.
  - intros p n table r Hr. unfold demo_search in Hr.
    assert (r ∈ filter (fun r => demo_where p r = true) table) as Hin.
    { destruct n; [|exact Hr]. eapply subseteq_take, Hr. }
    apply list_elem_of_filter in Hin. apply Hin.
  - intros p n table Hn. unfold demo_search. rewrite length_take. lia.
Defined.
End DemoServices.

(** ** An instance with naive and aware timestamps

    As [Demo], except that [fromisoformat] also reads a date followed
    by midnight at offset zero, [YYYY-MM-DDT00:00:00+00:00].  Such a
    value is aware of its time zone; a bare date is naive. *)
Module DemoAware.
Definition moment : Type := Demo.date * bool.

Definition parse_moment (s : string) : result moment :=
  let rest := substring 10 (String.length s - 10) s in
  if String.eqb rest "" then
    rbind (Demo.parse_date s) (fun d => Ok (d, false))
  else if String.eqb rest "T00:00:00+00:00" then
    rbind (Demo.parse_date (substring 0 10 s)) (fun d => Ok (d, true))
  else Raise ValueError.

Definition moment_earlier (a b : moment) : bool :=
  Demo.date_earlier (fst a) (fst b).

#[local] Instance providers : Providers := {|
  vector := nat;
  compute_source_embeddings := map String.length;
  embeddings_length := fun l => length_map String.length l;
  table_search := fun _ n rows => take (Z.to_nat n) rows;
  uuid4 := Demo.uuid;
  client_search := fun _ _ n items => take (Z.to_nat n) items;
  datetime := moment;
  fromisoformat := parse_moment;
  tz_aware := snd;
  earlier := moment_earlier;
  earlier_asym := fun a b => Demo.date_earlier_asym (fst a) (fst b);
  earlier_negtrans :=
    fun a b c => Demo.date_earlier_negtrans (fst a) (fst b) (fst c);
|}.

Definition empty_world (items : list item) : world :=
  mk_world providers ∅ "default" items 0.
End DemoAware.

(** ** Notions used in the statements *)

(** [x] may stand before [y] in a list sorted by [key] under [lt]:
    ascending, [y] is not less than [x]; with [reverse], [x] is not less
    than [y]. *)
Definition in_order {A K} (key : A -> result K) (lt : K -> K -> result bool)
    (reverse : bool) (x y : A) : Prop :=
  exists kx ky, key x = Ok kx /\ key y = Ok ky /\
    (if reverse then lt kx ky else lt ky kx) = Ok false.

(** The timestamp string of a slow-tier memory: its [updated_at], or its
    [created_at] when [updated_at] is absent (missing, [None] or
    empty). *)
Inductive timestamp_of (x : item) (s : string) : Prop :=
| from_updated_at :
    i_updated_at x = Some s -> s <> "" -> timestamp_of x s
| from_created_at :
    i_updated_at x = None \/ i_updated_at x = Some "" ->
    i_created_at x = Some s -> timestamp_of x s.





(** The rows of a fast-tier table; none when the table is missing. *)
Definition rows `{Providers} (name : string) (w : world) : list (record vector) :=
  default [] (fast_tables w !! name).

(** The fast-tier row one pass of the consolidation loop writes for a
    slow-tier memory when [k] uuids were drawn before: its text under a
    fresh id, embedded, with no metadata. *)
Definition copy `{Providers} (k : nat) (x : item) : list (record vector) :=
  LanceDBMemory.build_data [uuid4 k] [i_memory x]
    (compute_source_embeddings [i_memory x]) [None].

Fixpoint copies `{Providers} (k : nat) (items : list item)
    : list (record vector) :=
  match items with
  | [] => []
  | x :: items' => copy k x ++ copies (S k) items'
  end.

(** The state after the loop has pushed [items]. *)
Definition pushed `{Providers} (items : list item) (w : world) : world :=
  match items with
  | [] => w
  | _ :: _ =>
      mk_world _
        (<[LanceDBMemory.table_name :=
             rows LanceDBMemory.table_name w ++ copies (uuid_drawn w) items]>
           (fast_tables w))
        (agent_id w) (slow_items w)
        (uuid_drawn w + List.length items)
  end.

(** A computation that leaves the slow store as it found it, whether it
    returns or raises. *)
Definition keeps_slow `{Providers} {A} (m : M A) : Prop :=
  forall w, slow_items (snd (m w)) = slow_items w.

(** The ids of a table are uuids drawn so far, each drawn once. *)
Definition drawn_ids `{Providers} (name : string) (w : world) : Prop :=
  exists ks, map r_id (rows name w) = map uuid4 ks /\ NoDup ks /\
             Forall (fun k => k < uuid_drawn w) ks.

(** * Properties *)

(** ** Order of strings *)

Lemma ascii_compare_N (a b : ascii) :
  Ascii.compare a b = N.compare (N_of_ascii a) (N_of_ascii b).
Proof. reflexivity. Qed.

Lemma string_compare_refl (s : string) : String.compare s s = Eq.
Proof.
  induction s as [|c s IH]; simpl; [reflexivity|].
  rewrite ascii_compare_N, N.compare_refl. exact IH.
Qed.




(** ** [sorted] on keys that compare *)

Lemma StronglySorted_rev {A} (R : A -> A -> Prop) (l : list A) :
  StronglySorted R l -> StronglySorted (flip R) (rev l).
Proof.
  induction 1 as [|x l Hs IH Hx]; simpl; [constructor|].
  apply StronglySorted_app_2; [|exact IH|repeat constructor].
  intros x1 x2 H1 H2. apply list_elem_of_singleton in H2 as ->.
  unfold flip. rewrite Forall_forall in Hx. apply Hx.
  apply list_elem_of_In, in_rev, list_elem_of_In. exact H1.
Qed.

Section sorted_facts.
Context {A K : Type} (key : A -> result K) (lt : K -> K -> result bool).
Variable P : K -> Prop.
Hypothesis lt_defined : forall a b, P a -> P b -> exists r, lt a b = Ok r.
Hypothesis lt_asym :
  forall a b, P a -> P b -> lt a b = Ok true -> lt b a = Ok false.
Hypothesis lt_negtrans :
  forall a b c, P a -> P b -> P c ->
    lt a b = Ok false -> lt b c = Ok false -> lt a c = Ok false.

Let asc (x y : K * A) : Prop := lt (fst y) (fst x) = Ok false.
Let keyed (p : K * A) : Prop := key (snd p) = Ok (fst p) /\ P (fst p).

Lemma insert_sorted_ok (x : K * A) (l : list (K * A)) :
  keyed x -> Forall keyed l -> StronglySorted asc l ->
  exists r, insert_sorted lt x l = Ok r /\ r ≡ₚ x :: l /\
            StronglySorted asc r.
Proof.
  intros Hx. induction l as [|y l IH]; intros Hl Hs; simpl.
  - exists [x]. repeat split; [reflexivity|repeat constructor].
  - apply Forall_cons in Hl as [Hy Hl].
    apply StronglySorted_cons in Hs as [Hyl Hs].
    destruct (lt_defined (fst y) (fst x) (proj2 Hy) (proj2 Hx)) as [b Hb].
    rewrite Hb. simpl. destruct b.
    + destruct (IH Hl Hs) as (r & -> & Hperm & Hr). simpl.
      exists (y :: r). split; [reflexivity|]. split.
      * rewrite Hperm. apply perm_swap.
      * apply StronglySorted_cons. split; [|exact Hr].
        rewrite Hperm. constructor; [|exact Hyl].
        unfold asc. apply lt_asym; [apply Hy|apply Hx|exact Hb].
    + exists (x :: y :: l). split; [reflexivity|]. split; [reflexivity|].
      apply StronglySorted_cons. split.
      * constructor; [exact Hb|].
        rewrite Forall_forall in Hyl, Hl. apply Forall_forall.
        intros z Hz. unfold asc.
        apply (lt_negtrans (fst z) (fst y) (fst x));
          [apply (Hl z Hz)|apply Hy|apply Hx|apply (Hyl z Hz)|exact Hb].
      * apply StronglySorted_cons. split; assumption.
Qed.

Lemma sort_asc_ok (l : list (K * A)) :
  Forall keyed l ->
  exists r, sort_asc lt l = Ok r /\ r ≡ₚ l /\ StronglySorted asc r.
Proof.
  induction l as [|x l IH]; intros Hl; simpl.
  - exists []. repeat split; constructor.
  - apply Forall_cons in Hl as [Hx Hl].
    destruct (IH Hl) as (r & -> & Hperm & Hr). simpl.
    assert (Forall keyed r) as Hkr by (rewrite Hperm; exact Hl).
    destruct (insert_sorted_ok x r Hx Hkr Hr) as (r' & -> & Hperm' & Hr').
    exists r'. split; [reflexivity|]. split; [|exact Hr'].
    rewrite Hperm', Hperm. reflexivity.
Qed.

Lemma decorate_ok (l : list A) :
  (forall x, x ∈ l -> exists k, key x = Ok k /\ P k) ->
  exists d, decorate key l = Ok d /\ map snd d = l /\ Forall keyed d.
Proof.
  induction l as [|x l IH]; intros Hl; simpl.
  - exists []. repeat split; constructor.
  - destruct (Hl x) as (k & Hk & HP); [left|].
    destruct IH as (d & -> & Hd & Hkd).
    { intros y Hy. apply Hl. right. exact Hy. }
    rewrite Hk. simpl. exists ((k, x) :: d).
    split; [reflexivity|]. split; [simpl; congruence|].
    constructor; [split; assumption|exact Hkd].
Qed.

Lemma undecorate_sorted (reverse : bool) (s : list (K * A)) :
  Forall keyed s ->
  StronglySorted (if reverse then flip asc else asc) s ->
  StronglySorted (in_order key lt reverse) (map snd s).
Proof.
  induction s as [|x s IH]; intros Hk Hs; simpl; [constructor|].
  apply Forall_cons in Hk as [Hx Hk].
  apply StronglySorted_cons in Hs as [Hxs Hs].
  constructor; [apply IH; assumption|].
  apply Forall_forall. intros y Hy.
  apply list_elem_of_In, in_map_iff in Hy as (p & <- & Hp).
  apply list_elem_of_In in Hp.
  rewrite Forall_forall in Hk, Hxs.
  exists (fst x), (fst p). split; [apply Hx|]. split; [apply (Hk p Hp)|].
  specialize (Hxs p Hp). destruct reverse; exact Hxs.
Qed.

Lemma sorted_ok (reverse : bool) (l : list A) :
  (forall x, x ∈ l -> exists k, key x = Ok k /\ P k) ->
  exists s, sorted key lt reverse l = Ok s /\ s ≡ₚ l /\
            StronglySorted (in_order key lt reverse) s.
Proof.
  intros Hl. unfold sorted.
  destruct (decorate_ok l Hl) as (d & -> & Hd & Hkd). simpl.
  destruct reverse.
  - assert (Forall keyed (rev d)) as Hkr.
    { eapply Permutation_Forall; [apply Permutation_rev|exact Hkd]. }
    destruct (sort_asc_ok (rev d) Hkr) as (r & -> & Hperm & Hr). simpl.
    exists (map snd (rev r)). split; [reflexivity|]. split.
    + rewrite <- Hd. apply Permutation_map.
      rewrite <- (Permutation_rev r), Hperm, <- (Permutation_rev d).
      reflexivity.
    + apply (undecorate_sorted true).
      * eapply Permutation_Forall; [apply Permutation_rev|].
        rewrite Hperm. exact Hkr.
      * apply StronglySorted_rev. exact Hr.
  - destruct (sort_asc_ok d Hkd) as (r & -> & Hperm & Hr). simpl.
    exists (map snd r). split; [reflexivity|]. split.
    + rewrite <- Hd. apply Permutation_map. exact Hperm.
    + apply (undecorate_sorted false); [|exact Hr].
      rewrite Hperm. exact Hkd.
Qed.
End sorted_facts.

(** ** The fast store *)
Section fast_store_facts.
Context `{Providers}.

Lemma fresh_uuids_run (n : nat) (w : world) :
  LanceDBMemory.fresh_uuids n w =
    (Ok (map uuid4 (seq (uuid_drawn w) n)),
     mk_world _ (fast_tables w) (agent_id w) (slow_items w)
              (uuid_drawn w + n)).
Proof.
  revert w. induction n as [|n IH]; intros w; simpl.
  - unfold ret. destruct w; simpl. do 2 f_equal. lia.
  - unfold bind, fresh_uuid, ret. rewrite IH. simpl.
    do 2 f_equal. lia.
Qed.

Lemma name_or_nonempty (name : option string) :
  name_or name LanceDBMemory.table_name <> "".
Proof.
  unfold name_or. destruct name as [s|]; [|discriminate].
  destruct (decide (s = "")); [discriminate|assumption].
Qed.

Lemma open_table_run (name : option string) (w : world) :
  LanceDBMemory._open_table name w =
    (Ok match fast_tables w !! name_or name LanceDBMemory.table_name with
        | Some _ => Some (name_or name LanceDBMemory.table_name)
        | None => None
        end, w).
Proof.
  unfold LanceDBMemory._open_table, try_except, bind, client_open_table.
  destruct (fast_tables w !! _); reflexivity.
Qed.

Lemma name_or_idem (name : option string) :
  name_or (Some (name_or name LanceDBMemory.table_name))
          LanceDBMemory.table_name =
  name_or name LanceDBMemory.table_name.
Proof.
  unfold name_or at 1.
  destruct (decide _) as [E|_]; [|reflexivity].
  destruct (name_or_nonempty name E).
Qed.

(** Writing [data] to a table: creating it and appending to it end in
    the same state. *)
Lemma write_rows {A} (name : string) (data : list (record vector))
    (k : M A) (w : world) :
  name <> "" ->
  (names <- client_table_names ;;
   (if decide (name ∈ names) then
      t <- LanceDBMemory._open_table (Some name) ;;
      match t with
      | Some table => table_add table data
      | None => raise AttributeError
      end
    else
      client_create_table name data ;;; ret tt) ;;;
   k) w =
  k (set_fast_tables (fun t => <[name := rows name w ++ data]> t) w).
Proof.
  intros Hne. unfold bind at 1. unfold client_table_names, gets.
  destruct (decide (name ∈ dom (fast_tables w))) as [Hin|Hnin].
  - unfold bind. rewrite open_table_run. unfold name_or.
    destruct (decide (name = "")); [contradiction|].
    apply elem_of_dom in Hin as [r Hr]. rewrite Hr.
    unfold table_add, modify, set_fast_tables, rows. rewrite Hr.
    reflexivity.
  - apply not_elem_of_dom in Hnin.
    unfold client_create_table, bind, modify, ret, set_fast_tables, rows.
    rewrite Hnin. reflexivity.
Qed.

(** What [add] does once [texts] and [metadata] are lists: [ms] is the
    metadata list the comprehension zips with. *)
Lemma add_run (ts : list string) (meta : metadata_arg)
    (ms : list (option metadata)) (name : option string)
    (ids : option (list string)) (w : world) :
  match meta with
  | MetaNone => ms = replicate (List.length ts) None
  | MetaDict d => ms = [Some d]
  | MetaList l => ms = l /\ List.length ts = List.length l
  end ->
  LanceDBMemory.add (TextsList ts) meta name ids w =
    let n := name_or name LanceDBMemory.table_name in
    let ids' := match ids with
                | Some (i :: r) => i :: r
                | _ => map uuid4 (seq (uuid_drawn w) (List.length ts))
                end in
    let drawn := match ids with
                 | Some (_ :: _) => uuid_drawn w
                 | _ => uuid_drawn w + List.length ts
                 end in
    (Ok ids',
     mk_world _
       (<[n := rows n w ++
               LanceDBMemory.build_data ids' ts
                 (compute_source_embeddings ts) ms]> (fast_tables w))
       (agent_id w) (slow_items w) drawn).
Proof.
  intros Hms. unfold LanceDBMemory.add.
  assert (forall (k : list (option metadata) -> M (list string)),
    bind (match meta with
          | MetaNone => ret (replicate (List.length ts) None)
          | MetaDict d => ret [Some d]
          | MetaList l =>
              if decide (List.length ts = List.length l) then ret l
              else raise AssertionError
          end) k w = k ms w) as ->.
  { intros k. destruct meta as [|d|l]; subst; try reflexivity.
    destruct Hms as [-> Hlen].
    destruct (decide _); [reflexivity|contradiction]. }
  unfold bind at 1.
  assert (match ids with
          | Some (i :: ids') => ret (i :: ids')
          | _ => LanceDBMemory.fresh_uuids (List.length ts)
          end w =
          (Ok (match ids with
               | Some (i :: r) => i :: r
               | _ => map uuid4 (seq (uuid_drawn w) (List.length ts))
               end),
           mk_world _ (fast_tables w) (agent_id w) (slow_items w)
             (match ids with
              | Some (_ :: _) => uuid_drawn w
              | _ => uuid_drawn w + List.length ts
              end))) as ->.
  { destruct ids as [[|i r]|]; try apply fresh_uuids_run.
    unfold ret. destruct w; reflexivity. }
  cbv beta iota. rewrite write_rows by apply name_or_nonempty.
  reflexivity.
Qed.

Lemma add_length_mismatch (ts : list string) (l : list (option metadata))
    (name : option string) (ids : option (list string)) (w : world) :
  List.length ts <> List.length l ->
  LanceDBMemory.add (TextsList ts) (MetaList l) name ids w =
    (Raise AssertionError, w).
Proof.
  intros Hlen. unfold LanceDBMemory.add, bind.
  destruct (decide _); [contradiction|reflexivity].
Qed.
End fast_store_facts.

(** ** The rows [add] builds *)
Section build_data_facts.
Context `{Providers}.

Lemma build_data_texts (ids ts : list string) (es : list vector)
    (ms : list (option metadata)) :
  List.length ids = List.length ts -> List.length es = List.length ts ->
  List.length ms = List.length ts ->
  map r_text (LanceDBMemory.build_data ids ts es ms) = ts /\
  map r_metadata (LanceDBMemory.build_data ids ts es ms) = ms /\
  map r_id (LanceDBMemory.build_data ids ts es ms) = ids.
Proof.
  revert ids es ms.
  induction ts as [|t ts IH]; intros [|i ids] [|e es] [|m ms];
    simpl; try discriminate; intros Hi He Hm; [repeat split|].
  destruct (IH ids es ms) as (-> & -> & ->); [congruence..|].
  repeat split.
Qed.

Lemma copy_row (k : nat) (x : item) :
  exists v, compute_source_embeddings [i_memory x] = [v] /\
            copy k x = [mk_record v (i_memory x) (uuid4 k) None].
Proof.
  unfold copy.
  pose proof (embeddings_length [i_memory x]) as Hlen.
  destruct (compute_source_embeddings [i_memory x]) as [|v [|v' l]];
    try discriminate.
  exists v. split; reflexivity.
Qed.

Lemma copies_texts (k : nat) (items : list item) :
  map r_text (copies k items) = map i_memory items.
Proof.
  revert k. induction items as [|x items IH]; intros k; simpl;
    [reflexivity|].
  destruct (copy_row k x) as (v & _ & ->). simpl. rewrite IH. reflexivity.
Qed.

Lemma copies_metadata (k : nat) (items : list item) :
  Forall (fun r => r_metadata r = None) (copies k items).
Proof.
  revert k. induction items as [|x items IH]; intros k; simpl;
    [constructor|].
  destruct (copy_row k x) as (v & _ & ->). simpl. constructor; [reflexivity|].
  apply IH.
Qed.

Lemma rows_pushed (items : list item) (w : world) :
  rows LanceDBMemory.table_name (pushed items w) =
    rows LanceDBMemory.table_name w ++ copies (uuid_drawn w) items.
Proof.
  destruct items as [|x items]; simpl; [symmetry; apply app_nil_r|].
  unfold rows at 1. simpl. rewrite lookup_insert_eq. reflexivity.
Qed.

Lemma slow_items_pushed (items : list item) (w : world) :
  slow_items (pushed items w) = slow_items w.
Proof. destruct items; reflexivity. Qed.
End build_data_facts.

(** ** The consolidation loop and the two jobs *)
Section consolidation_facts.
Context `{Providers}.

Lemma push_run (items : list item) (w : world) :
  HybridMemory.push items w = (Ok tt, pushed items w).
Proof.
  revert w. induction items as [|x items IH]; intros w; [reflexivity|].
  unfold HybridMemory.push in *. simpl. unfold bind at 1. unfold bind at 1.
  rewrite (add_run [i_memory x] MetaNone [None]) by reflexivity.
  cbv beta iota zeta. unfold ret at 1. rewrite IH.
  f_equal. simpl.
  destruct items as [|y items]; simpl.
  - rewrite app_nil_r. do 2 f_equal.
  - unfold rows at 1. simpl. rewrite lookup_insert_eq. simpl.
    rewrite insert_insert_eq, <- app_assoc, Nat.add_1_r. simpl.
    f_equal. lia.
Qed.

Lemma last_n_consolidate_run (n limit : Z) (w : world) :
  HybridMemory.last_n_consolidate n limit w =
    match sorted HybridMemory.timestamp_key datetime_lt true
            (take (Z.to_nat limit) (slow_items w)) with
    | Ok s => (Ok (slice_to n s), pushed (slice_to n s) w)
    | Raise e => (Raise e, w)
    end.
Proof.
  change (HybridMemory.last_n_consolidate n limit w) with
    ((r <- Mem0.get_all limit ;;
      items <- lift (sorted HybridMemory.timestamp_key datetime_lt true
                       (Mem0.results r)) ;;
      HybridMemory.push (slice_to n items) ;;; ret (slice_to n items)) w).
  cbv [bind Mem0.get_all client_get_all gets ret lift Mem0.results].
  destruct (sorted _ _ _ _) as [s|e]; [|reflexivity].
  rewrite push_run. reflexivity.
Qed.

Lemma top_k_consolidate_run (k : Z) (metadata_key : string)
    (reverse : bool) (limit : Z) (w : world) :
  HybridMemory.top_k_consolidate k metadata_key reverse limit w =
    match sorted (HybridMemory.metadata_field metadata_key) py_lt reverse
            (take (Z.to_nat limit) (slow_items w)) with
    | Ok s => (Ok (slice_to k s), pushed (slice_to k s) w)
    | Raise e => (Raise e, w)
    end.
Proof.
  change (HybridMemory.top_k_consolidate k metadata_key reverse limit w) with
    ((r <- Mem0.get_all limit ;;
      items <- lift (sorted (HybridMemory.metadata_field metadata_key) py_lt
                       reverse (Mem0.results r)) ;;
      HybridMemory.push (slice_to k items) ;;; ret (slice_to k items)) w).
  cbv [bind Mem0.get_all client_get_all gets ret lift Mem0.results].
  destruct (sorted _ _ _ _) as [s|e]; [|reflexivity].
  rewrite push_run. reflexivity.
Qed.

Lemma slice_to_take {A} (n : Z) (l : list A) :
  (0 <= n)%Z -> slice_to n l = take (Z.to_nat n) l.
Proof.
  intros Hn. unfold slice_to.
  destruct (Z.leb_spec 0 n); [reflexivity|lia].
Qed.
End consolidation_facts.

(** ** The fast store: [add] and [query] *)
Section fast_store_claims.
Context `{Providers}.

Lemma build_data_no_metadata (ids ts : list string) (es : list vector) :
  LanceDBMemory.build_data ids ts es [] = [].
Proof. destruct ids, ts, es; reflexivity. Qed.

(** A single string is a batch of one text. *)
Lemma add_single_string (s : string) (meta : metadata_arg)
    (name : option string) (ids : option (list string)) :
  LanceDBMemory.add (TextsStr s) meta name ids =
  LanceDBMemory.add (TextsList [s]) meta name ids.
Proof. reflexivity. Qed.

(** With a metadata list as long as the texts, [add] appends one row
    per text, the i-th row carrying the i-th text and the i-th
    mapping, and returns one fresh id per text. *)
Lemma add_metadata_list (ts : list string) (l : list (option metadata))
    (name : option string) (w : world) :
  List.length ts = List.length l ->
  let n := name_or name LanceDBMemory.table_name in
  let ids := map uuid4 (seq (uuid_drawn w) (List.length ts)) in
  exists new w',
    LanceDBMemory.add (TextsList ts) (MetaList l) name None w = (Ok ids, w') /\
    rows n w' = rows n w ++ new /\
    map r_text new = ts /\ map r_metadata new = l /\ map r_id new = ids.
Proof.
  intros Hlen. cbv zeta.
  rewrite (add_run ts (MetaList l) l) by (split; [reflexivity|exact Hlen]).
  cbv zeta. eexists _, _. split; [reflexivity|]. split.
  - unfold rows at 1. simpl. rewrite lookup_insert_eq. reflexivity.
  - apply build_data_texts.
    + rewrite length_map, length_seq. reflexivity.
    + apply embeddings_length.
    + symmetry. exact Hlen.
Qed.

(** With one text, a single mapping is attached to the one row. *)
Lemma add_single_mapping_one_text (t : string) (d : metadata)
    (name : option string) (w : world) :
  let n := name_or name LanceDBMemory.table_name in
  exists v w',
    LanceDBMemory.add (TextsList [t]) (MetaDict d) name None w =
      (Ok [uuid4 (uuid_drawn w)], w') /\
    rows n w' = rows n w ++ [mk_record v t (uuid4 (uuid_drawn w)) (Some d)].
Proof.
  intros n. rewrite (add_run [t] (MetaDict d) [Some d]) by reflexivity.
  cbv zeta. pose proof (embeddings_length [t]) as Hlen.
  destruct (compute_source_embeddings [t]) as [|v [|v' es]] eqn:E;
    try discriminate.
  exists v. eexists. split; [reflexivity|].
  unfold rows at 1. simpl. rewrite lookup_insert_eq. reflexivity.
Qed.

(** C1, at its failing inputs: with a single metadata mapping and two
    or more texts, [add] writes one row only, the row of the first
    text with the mapping attached; the other texts are not stored,
    although one id per text is returned.  The mapping is wrapped as a
    list of one entry and the rows are built by a [zip], which stops
    with its shortest argument. *)
Theorem add_single_mapping_writes_one_row (t : string) (ts : list string)
    (d : metadata) (name : option string) (w : world) :
  let n := name_or name LanceDBMemory.table_name in
  exists v w',
    LanceDBMemory.add (TextsList (t :: ts)) (MetaDict d) name None w =
      (Ok (map uuid4 (seq (uuid_drawn w) (S (List.length ts)))), w') /\
    rows n w' = rows n w ++ [mk_record v t (uuid4 (uuid_drawn w)) (Some d)].
Proof.
  intros n. rewrite (add_run (t :: ts) (MetaDict d) [Some d]) by reflexivity.
  cbv zeta. pose proof (embeddings_length (t :: ts)) as Hlen.
  destruct (compute_source_embeddings (t :: ts)) as [|v es] eqn:E;
    [discriminate|].
  exists v. eexists. split; [reflexivity|].
  unfold rows at 1. simpl. rewrite lookup_insert_eq.
  rewrite build_data_no_metadata. reflexivity.
Qed.

(** [query] neither raises nor changes the state; on a missing table
    it answers with the empty list. *)
Lemma query_run (qs : list string) (name : option string) (n : Z)
    (w : world) :
  LanceDBMemory.query qs name n w =
    (Ok match fast_tables w !! name_or name LanceDBMemory.table_name with
        | Some table =>
            map (fun q => table_search q n table)
                (compute_source_embeddings qs)
        | None => []
        end, w).
Proof.
  unfold LanceDBMemory.query. unfold bind at 1. rewrite open_table_run.
  destruct (fast_tables w !! _) as [table|] eqn:E; [|reflexivity].
  induction (compute_source_embeddings qs) as [|q l IH]; [reflexivity|].
  unfold bind at 1. unfold table_search_list at 1, gets at 1.
  unfold bind at 1. rewrite IH. unfold ret, rows. rewrite E. reflexivity.
Qed.

(** C2, at its failing inputs: on a missing table [query] returns the
    empty list, whatever the number of query texts, without raising and
    without touching the state.  For one or more query texts this is
    not the list of one (empty) result list per query text that the
    docstring, the return type [List[List[dict]]] and the branch of an
    existing table give: the guard [if table is None: return []] answers
    before any query text is looked at. *)
Theorem query_missing_table (qs : list string) (name : option string)
    (n : Z) (w : world) :
  fast_tables w !! name_or name LanceDBMemory.table_name = None ->
  LanceDBMemory.query qs name n w = (Ok [], w).
Proof. intros Hnone. rewrite query_run, Hnone. reflexivity. Qed.
End fast_store_claims.

(** For one query text on a missing table the answer is the empty list,
    not a list holding one empty result list. *)
Lemma query_missing_table_not_per_query :
  let qs := ["where is the data"] in
  let w := Demo.empty_world [] in
  fast_tables w !! LanceDBMemory.table_name = None /\
  fst (LanceDBMemory.query qs None 5 w) <> Ok (replicate (List.length qs) []).
Proof. split; [reflexivity|]. vm_compute. discriminate. Qed.

Lemma query_missing_table_witness :
  let w := Demo.empty_world [] in
  fast_tables w !! name_or None LanceDBMemory.table_name = None /\
  LanceDBMemory.query ["where is the data"; "who ran it"] None 5 w = (Ok [], w).
Proof.
  split; [reflexivity|].
  apply (query_missing_table ["where is the data"; "who ran it"] None 5
           (Demo.empty_world [])).
  reflexivity.
Defined.

(** ** The slow store and the coordinator's [query], [reset] *)
Section coordinator_claims.
Context `{Providers}.

(** C10: whatever the query text and [n_results], the slow store's
    [query] evaluates to [None]; the hits of the client's search are
    not returned.  The state is left as it was. *)
Theorem mem0_query_returns_none (query_text : string) (n_results : Z)
    (w : world) :
  Mem0.query query_text n_results w = (Ok None, w).
Proof. reflexivity. Qed.

(** With [fast_query] set, the coordinator answers with the result
    lists of the fast store and nothing else. *)
Lemma hybrid_query_fast_only (query : string) (n_results : Z) (w : world) :
  HybridMemory.query query n_results true w =
    (rbind (fst (LanceDBMemory.query [query] None n_results w))
           (fun rs => Ok (map HybridMemory.FastResults rs)), w).
Proof.
  unfold HybridMemory.query, bind. rewrite query_run. reflexivity.
Qed.

(** C3, at its failing inputs: with [fast_query=False] the coordinator
    raises a [TypeError] for every query, in every state: the slow
    store's [query] hands back [None], and [results.extend(None)]
    cannot iterate it.  No slow-memory result is ever appended. *)
Theorem hybrid_query_with_slow_raises (query : string) (n_results : Z)
    (w : world) :
  HybridMemory.query query n_results false w = (Raise TypeError, w).
Proof.
  unfold HybridMemory.query, bind. rewrite query_run. reflexivity.
Qed.

(** C6: [reset] with [only_reset_slow_memory=True] empties the slow
    store and leaves every fast-tier table, hence every [count], as it
    was; with [False] it empties the slow store and drops the fast
    store's default table, whose [count] is then 0.  The slow store is
    emptied in both cases. *)
Theorem hybrid_reset_spec (w : world) :
  (let '(r, w') := HybridMemory.reset true w in
   r = Ok tt /\ slow_items w' = [] /\ fast_tables w' = fast_tables w /\
   forall name, fst (LanceDBMemory.count name w') =
                fst (LanceDBMemory.count name w)) /\
  (let '(r, w') := HybridMemory.reset false w in
   r = Ok tt /\ slow_items w' = [] /\
   fast_tables w' = delete LanceDBMemory.table_name (fast_tables w) /\
   fst (LanceDBMemory.count None w') = Ok O).
Proof.
  split.
  - simpl. repeat split; try reflexivity.
    intros name. unfold LanceDBMemory.count, bind.
    rewrite !open_table_run. simpl.
    destruct (fast_tables w !! _); reflexivity.
  - unfold HybridMemory.reset, LanceDBMemory.reset, LanceDBMemory.drop.
    unfold Mem0.reset, client_reset. unfold bind at 1. unfold modify at 1.
    cbv beta iota. unfold negb. unfold bind at 1. unfold bind at 1.
    rewrite open_table_run. simpl.
    destruct (fast_tables w !! LanceDBMemory.table_name) as [t|] eqn:E;
      simpl.
    + repeat split; try reflexivity.
      unfold LanceDBMemory.count, bind. rewrite open_table_run. simpl.
      rewrite lookup_delete_eq. reflexivity.
    + repeat split; try reflexivity.
      * symmetry. apply delete_id. exact E.
      * unfold LanceDBMemory.count, bind. rewrite open_table_run. simpl.
        rewrite E. reflexivity.
Qed.

(** C7: after [last_n_consolidate] and after [top_k_consolidate],
    whatever the arguments and whether the call returns or raises, the
    slow store holds what it held before. *)
Theorem consolidation_keeps_slow_store (n k limit : Z)
    (metadata_key : string) (reverse : bool) :
  keeps_slow (HybridMemory.last_n_consolidate n limit) /\
  keeps_slow (HybridMemory.top_k_consolidate k metadata_key reverse limit).
Proof.
  split; intros w.
  - rewrite last_n_consolidate_run.
    destruct (sorted _ _ _ _); [apply slow_items_pushed|reflexivity].
  - rewrite top_k_consolidate_run.
    destruct (sorted _ _ _ _); [apply slow_items_pushed|reflexivity].
Qed.

(** C8: [prompt_based_consolidate] raises [NotImplementedError] for
    every prompt: it never returns a value, and both stores are left
    as they were. *)
Theorem prompt_based_consolidate_raises (prompt : string) (w : world) :
  HybridMemory.prompt_based_consolidate prompt w =
    (Raise NotImplementedError, w).
Proof. reflexivity. Qed.
End coordinator_claims.

(** ** Order of the metadata values *)














(** ** The two consolidation jobs *)

Lemma datetime_lt_defined `{Providers} (aware : bool) (a b : datetime) :
  tz_aware a = aware -> tz_aware b = aware ->
  datetime_lt a b = Ok (earlier a b).
Proof.
  intros Ha Hb. unfold datetime_lt. rewrite Ha, Hb, Bool.eqb_reflx.
  reflexivity.
Qed.

(** What a run that sorted its batch into [ordered] leaves behind. *)
Lemma pushed_selection `{Providers} (sel : list item) (w : world) :
  map r_text (rows LanceDBMemory.table_name (pushed sel w)) =
    map r_text (rows LanceDBMemory.table_name w) ++ map i_memory sel /\
  slow_items (pushed sel w) = slow_items w.
Proof.
  split; [|apply slow_items_pushed].
  rewrite rows_pushed, map_app, copies_texts. reflexivity.
Qed.

(** A sorted list stays sorted under a relation that follows from the
    first on the elements of the list. *)
Lemma StronglySorted_on {A} (R R' : A -> A -> Prop) (P : A -> Prop)
    (l : list A) :
  (forall x y, P x -> P y -> R x y -> R' x y) ->
  Forall P l -> StronglySorted R l -> StronglySorted R' l.
Proof.
  intros Himpl HP Hsorted. induction Hsorted as [|x l Hl IH Hx].
  - constructor.
  - apply Forall_cons in HP as [Px Pl]. constructor; [apply IH, Pl|].
    rewrite Forall_forall in *. intros y Hy.
    apply Himpl; [exact Px|apply Pl, Hy|apply Hx, Hy].
Qed.

(** The sort key of [last_n_consolidate] is the parsed timestamp
    string. *)
Lemma timestamp_key_of `{Providers} (x : item) (s : string) :
  timestamp_of x s -> HybridMemory.timestamp_key x = fromisoformat s.
Proof.
  unfold HybridMemory.timestamp_key.
  intros [Hu Hs|[Hu|Hu] Hc]; rewrite Hu; simpl.
  - destruct (decide (s = "")); [contradiction|reflexivity].
  - rewrite Hc. reflexivity.
  - rewrite Hc. reflexivity.
Qed.

(** C4, amended: when the timestamp string of every pulled item (its
    [updated_at], or its [created_at] where [updated_at] is absent)
    parses, to [stamp x] say, and the parsed values are of one kind (all
    naive or all aware), [last_n_consolidate] returns [ordered[:n]] for
    a rearrangement [ordered] of the pulled items in which no item is
    earlier than an item after it (descending by [stamp]); for [n >= 0]
    these are its first [n] items; the texts of the returned items are
    appended, in this order, to the fast store's default table, and the
    slow store is unchanged.  In particular, for [updated_at] values
    2024-01-01, 2024-03-01, 2024-02-01 and [n = 2] the items of
    2024-03-01 and 2024-02-01 are returned, in this order; and of an
    item updated on 2024-02-01 (created in 2023), an item created on
    2024-03-01 and never updated, and an item created on 2024-01-01
    whose [updated_at] is empty, the second and the first are
    returned. *)
Theorem last_n_consolidate_spec :
  (forall `{Providers} (n limit : Z) (aware : bool) (stamp : item -> datetime)
          (w : world),
     let pulled := take (Z.to_nat limit) (slow_items w) in
     (forall x, x ∈ pulled ->
        exists s, timestamp_of x s /\ fromisoformat s = Ok (stamp x) /\
                  tz_aware (stamp x) = aware) ->
     exists ordered w',
       HybridMemory.last_n_consolidate n limit w =
         (Ok (slice_to n ordered), w') /\
       ordered ≡ₚ pulled /\
       StronglySorted (fun x y => earlier (stamp x) (stamp y) = false) ordered /\
       ((0 <= n)%Z -> slice_to n ordered = take (Z.to_nat n) ordered) /\
       map r_text (rows LanceDBMemory.table_name w') =
         map r_text (rows LanceDBMemory.table_name w) ++
         map i_memory (slice_to n ordered) /\
       slow_items w' = slow_items w) /\
  (let jan := Demo.dated "m1" "ran the baseline" "2024-01-01" in
   let mar := Demo.dated "m2" "tuned the learning rate" "2024-03-01" in
   let feb := Demo.dated "m3" "added cross validation" "2024-02-01" in
   let '(r, w') :=
     HybridMemory.last_n_consolidate 2 1000 (Demo.empty_world [jan; mar; feb]) in
   r = Ok [mar; feb] /\
   map r_text (rows LanceDBMemory.table_name w') =
     ["tuned the learning rate"; "added cross validation"]) /\
  (let edited := mk_item "m1" "ran the baseline" None
                         (Some "2023-06-01") (Some "2024-02-01") in
   let fresh := mk_item "m2" "tuned the learning rate" None
                        (Some "2024-03-01") None in
   let blank := mk_item "m3" "added cross validation" None
                        (Some "2024-01-01") (Some "") in
   let '(r, w') :=
     HybridMemory.last_n_consolidate 2 1000
       (Demo.empty_world [edited; fresh; blank]) in
   r = Ok [fresh; edited] /\
   map r_text (rows LanceDBMemory.table_name w') =
     ["tuned the learning rate"; "ran the baseline"]).
Proof.
  split; [|split; vm_compute; split; reflexivity].
  intros H n limit aware stamp w pulled Hkeys.
  assert (forall x, x ∈ pulled ->
            HybridMemory.timestamp_key x = Ok (stamp x) /\
            tz_aware (stamp x) = aware) as Htime.
  { intros x Hx. destruct (Hkeys x Hx) as (s & Hs & Hparse & Haware).
    rewrite (timestamp_key_of x s Hs). split; assumption. }
  destruct (sorted_ok HybridMemory.timestamp_key datetime_lt
              (fun d => tz_aware d = aware)) with (reverse := true) (l := pulled)
    as (s & Hs & Hperm & Hsorted).
  - intros a b Ha Hb. eexists. apply (datetime_lt_defined aware); assumption.
  - intros a b Ha Hb. rewrite !(datetime_lt_defined aware) by assumption.
    intros [= Hlt]. f_equal. apply earlier_asym. exact Hlt.
  - intros a b c Ha Hb Hc. rewrite !(datetime_lt_defined aware) by assumption.
    intros [= Hab] [= Hbc]. f_equal. apply (earlier_negtrans a b c); assumption.
  - intros x Hx. destruct (Htime x Hx) as [Hk Ha]. eauto.
  - exists s, (pushed (slice_to n s) w).
    rewrite last_n_consolidate_run. fold pulled. rewrite Hs.
    split; [reflexivity|]. split; [exact Hperm|]. split.
    + apply (StronglySorted_on
               (in_order HybridMemory.timestamp_key datetime_lt true) _
               (fun x => x ∈ pulled)); [|  |exact Hsorted].
      * intros x y Hx Hy (kx & ky & Hkx & Hky & Hlt).
        destruct (Htime x Hx) as [Hx' Hax], (Htime y Hy) as [Hy' Hay].
        rewrite Hx' in Hkx. rewrite Hy' in Hky.
        injection Hkx as <-. injection Hky as <-.
        rewrite (datetime_lt_defined aware) in Hlt by assumption.
        congruence.
      * apply Forall_forall. intros x Hx. rewrite <- Hperm. exact Hx.
    + split; [apply slice_to_take|]. apply pushed_selection.
Qed.


(** C9, amended: neither consolidation keeps metadata in the fast tier.
    Whenever [last_n_consolidate] or [top_k_consolidate] returns, the
    rows it appended to the fast store's default table carry the texts
    of the returned items, in order, and no metadata; the two jobs do
    not differ in this. *)
Theorem consolidation_copies_without_metadata `{Providers}
    (n k limit : Z) (metadata_key : string) (reverse : bool)
    (w w' : world) (selected : list item) :
  HybridMemory.last_n_consolidate n limit w = (Ok selected, w') \/
  HybridMemory.top_k_consolidate k metadata_key reverse limit w =
    (Ok selected, w') ->
  exists new,
    rows LanceDBMemory.table_name w' = rows LanceDBMemory.table_name w ++ new /\
    map r_text new = map i_memory selected /\
    Forall (fun r => r_metadata r = None) new.
Proof.
  intros Hrun. exists (copies (uuid_drawn w) selected).
  assert (w' = pushed selected w) as ->.
  { destruct Hrun as [Hrun|Hrun].
    - rewrite last_n_consolidate_run in Hrun.
      destruct (sorted _ _ _ _); congruence.
    - rewrite top_k_consolidate_run in Hrun.
      destruct (sorted _ _ _ _); congruence. }
  split; [apply rows_pushed|]. split; [apply copies_texts|].
  apply copies_metadata.
Qed.

(** * Further properties of the fast store *)
Section fast_store_more.
Context `{Providers}.

Lemma count_run (name : option string) (w : world) :
  LanceDBMemory.count name w =
    (Ok (List.length (rows (name_or name LanceDBMemory.table_name) w)), w).
Proof.
  unfold LanceDBMemory.count, bind. rewrite open_table_run. unfold rows.
  destruct (fast_tables w !! _) as [table|] eqn:E; [|reflexivity].
  unfold table_count_rows, gets. rewrite E. reflexivity.
Qed.

Lemma build_data_prefix (ids ts : list string) (es : list vector)
    (ms : list (option metadata)) :
  List.length es = List.length ts -> List.length ms = List.length ts ->
  map r_text (LanceDBMemory.build_data ids ts es ms) =
    take (List.length ids) ts /\
  map r_id (LanceDBMemory.build_data ids ts es ms) =
    take (List.length ts) ids /\
  map r_metadata (LanceDBMemory.build_data ids ts es ms) =
    take (List.length ids) ms.
Proof.
  revert ts es ms.
  induction ids as [|i ids IH]; intros [|t ts] [|e es] [|m ms];
    simpl; try discriminate; intros He Hm; try (repeat split; reflexivity).
  destruct (IH ts es ms) as (-> & -> & ->); [congruence..|].
  repeat split.
Qed.

Lemma build_data_ids_prefix (ids ts : list string) (es : list vector)
    (ms : list (option metadata)) :
  map r_id (LanceDBMemory.build_data ids ts es ms) =
    take (List.length (LanceDBMemory.build_data ids ts es ms)) ids.
Proof.
  revert ts es ms.
  induction ids as [|i ids IH]; intros [|t ts] [|e es] [|m ms];
    simpl; try reflexivity.
  rewrite IH. reflexivity.
Qed.

Lemma add_outcome_list (ts : list string) (meta : metadata_arg)
    (name : option string) (ids : option (list string)) (w : world) :
  let n := name_or name LanceDBMemory.table_name in
  let w' := snd (LanceDBMemory.add (TextsList ts) meta name ids w) in
  slow_items w' = slow_items w /\ agent_id w' = agent_id w /\
  uuid_drawn w <= uuid_drawn w' /\
  (forall other, other <> n ->
     fast_tables w' !! other = fast_tables w !! other) /\
  exists new, rows n w' = rows n w ++ new /\
    map r_id new = take (List.length new)
      match ids with
      | Some (i :: r) => i :: r
      | _ => map uuid4 (seq (uuid_drawn w) (List.length ts))
      end.
Proof.
  intros n w'. subst n w'.
  assert ((exists ms, match meta with
            | MetaNone => ms = replicate (List.length ts) None
            | MetaDict d => ms = [Some d]
            | MetaList l => ms = l /\ List.length ts = List.length l
            end) \/ exists l, meta = MetaList l /\
                              List.length ts <> List.length l)
    as [[ms Hms]|(l & -> & Hlen)].
  { destruct meta as [|d|l]; [left; eexists; reflexivity..|].
    destruct (decide (List.length ts = List.length l)).
    - left. exists l. split; [reflexivity|assumption].
    - right. eauto. }
  - rewrite (add_run ts meta ms) by exact Hms. cbv zeta. simpl.
    repeat split; [destruct ids as [[|? ?]|]; lia| |].
    + intros other Hne. apply lookup_insert_ne. congruence.
    + eexists. split.
      * unfold rows at 1. simpl. rewrite lookup_insert_eq. reflexivity.
      * apply build_data_ids_prefix.
  - rewrite add_length_mismatch by exact Hlen. simpl.
    repeat split; [lia|]. exists []. rewrite app_nil_r. split; reflexivity.
Qed.

(** X1: whatever its arguments and whether it returns or raises, [add]
    leaves the slow store and every table other than its target as they
    were; the target table only grows at its end, by rows whose ids are
    the first of the ids given (or of the uuids drawn). *)
Theorem add_only_appends_to_target (texts : texts_arg) (meta : metadata_arg)
    (name : option string) (ids : option (list string)) (w : world) :
  let n := name_or name LanceDBMemory.table_name in
  let w' := snd (LanceDBMemory.add texts meta name ids w) in
  slow_items w' = slow_items w /\ agent_id w' = agent_id w /\
  uuid_drawn w <= uuid_drawn w' /\
  (forall other, other <> n ->
     fast_tables w' !! other = fast_tables w !! other) /\
  exists new, rows n w' = rows n w ++ new /\
    map r_id new = take (List.length new)
      match ids with
      | Some (i :: r) => i :: r
      | _ => map uuid4 (seq (uuid_drawn w)
               (List.length match texts with
                            | TextsStr s => [s]
                            | TextsList l => l
                            end))
      end.
Proof.
  destruct texts as [s|ts].
  - exact (add_outcome_list [s] meta name ids w).
  - exact (add_outcome_list ts meta name ids w).
Qed.

(** X2: without metadata and without ids, [add] appends one row per
    text, in order, each under a freshly drawn uuid and with no
    metadata, and returns these uuids in the order of the texts; [count]
    of the table grows by the number of texts. *)
Theorem add_texts_only (ts : list string) (name : option string) (w : world) :
  let n := name_or name LanceDBMemory.table_name in
  let ids := map uuid4 (seq (uuid_drawn w) (List.length ts)) in
  exists new w',
    LanceDBMemory.add (TextsList ts) MetaNone name None w = (Ok ids, w') /\
    rows n w' = rows n w ++ new /\
    map r_text new = ts /\ map r_id new = ids /\
    Forall (fun r => r_metadata r = None) new /\
    uuid_drawn w' = uuid_drawn w + List.length ts /\
    fst (LanceDBMemory.count name w') =
      rbind (fst (LanceDBMemory.count name w))
            (fun c => Ok (c + List.length ts)).
Proof.
  cbv zeta.
  rewrite (add_run ts MetaNone (replicate (List.length ts) None))
    by reflexivity.
  cbv zeta. eexists _, _. split; [reflexivity|].
  destruct (build_data_texts
              (map uuid4 (seq (uuid_drawn w) (List.length ts))) ts
              (compute_source_embeddings ts)
              (replicate (List.length ts) None)) as (Ht & Hm & Hi).
  { rewrite length_map, length_seq. reflexivity. }
  { apply embeddings_length. }
  { apply length_replicate. }
  assert (rows (name_or name LanceDBMemory.table_name)
            (mk_world _
               (<[name_or name LanceDBMemory.table_name :=
                    rows (name_or name LanceDBMemory.table_name) w ++
                    LanceDBMemory.build_data
                      (map uuid4 (seq (uuid_drawn w) (List.length ts))) ts
                      (compute_source_embeddings ts)
                      (replicate (List.length ts) None)]> (fast_tables w))
               (agent_id w) (slow_items w) (uuid_drawn w + List.length ts)) =
          rows (name_or name LanceDBMemory.table_name) w ++
          LanceDBMemory.build_data
            (map uuid4 (seq (uuid_drawn w) (List.length ts))) ts
            (compute_source_embeddings ts)
            (replicate (List.length ts) None)) as Hrows.
  { unfold rows at 1. simpl. rewrite lookup_insert_eq. reflexivity. }
  split; [exact Hrows|]. split; [exact Ht|]. split; [exact Hi|].
  split.
  { apply Forall_forall. intros r Hr.
    assert (r_metadata r ∈ replicate (List.length ts) (@None metadata)) as Hin.
    { rewrite <- Hm. apply list_elem_of_fmap. exists r. split; [reflexivity|exact Hr]. }
    apply elem_of_replicate in Hin. apply Hin. }
  split; [reflexivity|].
  rewrite !count_run. simpl. rewrite Hrows, length_app.
  rewrite <- (length_map r_text (LanceDBMemory.build_data _ _ _ _)), Ht.
  reflexivity.
Qed.

(** X3: with explicit ids (a non-empty list) and no metadata, [add]
    returns exactly these ids and draws no uuid; the rows are built by a
    [zip], so the texts stored are the first [len(ids)] texts and the
    ids used the first [len(texts)] ids: texts beyond the ids are not
    stored. *)
Theorem add_explicit_ids (ts : list string) (i : string) (ids : list string)
    (name : option string) (w : world) :
  let n := name_or name LanceDBMemory.table_name in
  exists new w',
    LanceDBMemory.add (TextsList ts) MetaNone name (Some (i :: ids)) w =
      (Ok (i :: ids), w') /\
    rows n w' = rows n w ++ new /\
    map r_text new = take (List.length (i :: ids)) ts /\
    map r_id new = take (List.length ts) (i :: ids) /\
    uuid_drawn w' = uuid_drawn w.
Proof.
  cbv zeta.
  rewrite (add_run ts MetaNone (replicate (List.length ts) None))
    by reflexivity.
  cbv zeta. eexists _, _. split; [reflexivity|].
  destruct (build_data_prefix (i :: ids) ts (compute_source_embeddings ts)
              (replicate (List.length ts) None)) as (Ht & Hi & _).
  { apply embeddings_length. }
  { apply length_replicate. }
  split; [unfold rows at 1; simpl; rewrite lookup_insert_eq; reflexivity|].
  split; [exact Ht|]. split; [exact Hi|reflexivity].
Qed.

(** X4: the caller contract on a metadata list.  A list as long as the
    texts attaches the i-th mapping to the i-th text, one row per text;
    a list of another length fails the assertion before anything is
    embedded, drawn or written. *)
Theorem add_metadata_list_contract (ts : list string)
    (l : list (option metadata)) (name : option string) (w : world) :
  let n := name_or name LanceDBMemory.table_name in
  (List.length ts = List.length l ->
   exists new w',
     LanceDBMemory.add (TextsList ts) (MetaList l) name None w =
       (Ok (map uuid4 (seq (uuid_drawn w) (List.length ts))), w') /\
     rows n w' = rows n w ++ new /\
     map r_text new = ts /\ map r_metadata new = l) /\
  (List.length ts <> List.length l ->
   forall ids, LanceDBMemory.add (TextsList ts) (MetaList l) name ids w =
                 (Raise AssertionError, w)).
Proof.
  cbv zeta. split.
  - intros Hlen.
    destruct (add_metadata_list ts l name w Hlen)
      as (new & w' & Hrun & Hrows & Ht & Hm & _).
    exists new, w'. repeat split; assumption.
  - intros Hlen ids. apply add_length_mismatch. exact Hlen.
Qed.

(** X5: on a table that exists, [query] answers with exactly one result
    list per query text, the search of the table for the embedding of
    that text, and leaves the state as it was. *)
Theorem query_existing_table (qs : list string) (name : option string)
    (n_results : Z) (w : world) (table : list (record vector)) :
  fast_tables w !! name_or name LanceDBMemory.table_name = Some table ->
  exists results,
    LanceDBMemory.query qs name n_results w = (Ok results, w) /\
    List.length results = List.length qs /\
    results = map (fun q => table_search q n_results table)
                  (compute_source_embeddings qs).
Proof.
  intros Htable. rewrite query_run, Htable. eexists. split; [reflexivity|].
  split; [|reflexivity]. rewrite length_map. apply embeddings_length.
Qed.

Lemma drop_run (name : option string) (w : world) :
  LanceDBMemory.drop name w =
    (Ok match fast_tables w !! name_or name LanceDBMemory.table_name with
        | Some _ => None
        | None => Some true
        end,
     set_fast_tables (delete (name_or name LanceDBMemory.table_name)) w).
Proof.
  unfold LanceDBMemory.drop, bind. rewrite open_table_run, name_or_idem.
  destruct (fast_tables w !! _) as [table|] eqn:E.
  - reflexivity.
  - unfold ret, set_fast_tables. rewrite delete_id by exact E.
    destruct w; reflexivity.
Qed.

(** X6: after [drop] the table is gone: [count] is 0 and [query]
    answers with the empty list; the other tables and the slow store are
    as before; a second [drop] reports [True] and changes nothing. *)
Theorem drop_spec (name : option string) (w : world) :
  let n := name_or name LanceDBMemory.table_name in
  let w' := snd (LanceDBMemory.drop name w) in
  LanceDBMemory.count name w' = (Ok O, w') /\
  (forall qs k, LanceDBMemory.query qs name k w' = (Ok [], w')) /\
  (forall other, other <> n ->
     fast_tables w' !! other = fast_tables w !! other) /\
  slow_items w' = slow_items w /\
  LanceDBMemory.drop name w' = (Ok (Some true), w').
Proof.
  cbv zeta. rewrite drop_run. simpl.
  assert (fast_tables
            (set_fast_tables (delete (name_or name LanceDBMemory.table_name)) w)
            !! name_or name LanceDBMemory.table_name = None) as Hgone.
  { simpl. apply lookup_delete_eq. }
  split.
  { rewrite count_run. unfold rows. rewrite Hgone. reflexivity. }
  split.
  { intros qs k. rewrite query_run, Hgone. reflexivity. }
  split.
  { intros other Hne. simpl. apply lookup_delete_ne. congruence. }
  split; [reflexivity|].
  rewrite drop_run, Hgone. f_equal. unfold set_fast_tables. simpl.
  rewrite delete_delete_eq. reflexivity.
Qed.

(** X7: the fast store's [reset], and with it the coordinator's
    [reset(only_reset_slow_memory=False)], drops the default table only:
    every table of another name keeps its rows. *)
Theorem reset_keeps_other_tables (other : string) (w : world) :
  other <> LanceDBMemory.table_name -> other <> "" ->
  fast_tables (snd (LanceDBMemory.reset w)) !! other =
    fast_tables w !! other /\
  fast_tables (snd (HybridMemory.reset false w)) !! other =
    fast_tables w !! other /\
  fst (LanceDBMemory.count (Some other) (snd (HybridMemory.reset false w))) =
    fst (LanceDBMemory.count (Some other) w).
Proof.
  intros Hne Hnonempty.
  assert (fast_tables (snd (LanceDBMemory.reset w)) !! other =
          fast_tables w !! other) as H1.
  { unfold LanceDBMemory.reset, bind. rewrite drop_run. simpl.
    apply lookup_delete_ne. congruence. }
  assert (fast_tables (snd (HybridMemory.reset false w)) !! other =
          fast_tables w !! other) as H2.
  { unfold HybridMemory.reset, Mem0.reset, client_reset. unfold bind at 1.
    unfold modify at 1. cbv beta iota. unfold negb.
    unfold LanceDBMemory.reset, bind. rewrite drop_run. simpl.
    apply lookup_delete_ne. congruence. }
  split; [exact H1|]. split; [exact H2|].
  rewrite !count_run. simpl. unfold rows, name_or.
  destruct (decide (other = "")); [contradiction|].
  rewrite H2. reflexivity.
Qed.
End fast_store_more.

(** * The index methods of the fast store and the coordinator's [add] *)
Section index_facts.
Context `{Services}.

Lemma fts_run (name : option string) (p : option string) (n : option Z)
    (w : world) :
  (t <- LanceDBMemory._open_table name ;;
   match t with
   | None => ret []
   | Some table => table_fts table p n
   end) w =
  (Ok match fast_tables w !! name_or name LanceDBMemory.table_name with
      | Some table => fts_search p n table
      | None => []
      end, w).
Proof.
  unfold bind. rewrite open_table_run.
  destruct (fast_tables w !! _) as [table|] eqn:E; [|reflexivity].
  unfold table_fts, gets. rewrite E. reflexivity.
Qed.

Lemma list_all_keys_run (name : option string) (w : world) :
  LanceDBMemory.list_all_keys name w =
  (Ok match fast_tables w !! name_or name LanceDBMemory.table_name with
      | Some table => map r_id (fts_search None None table)
      | None => []
      end, w).
Proof.
  unfold LanceDBMemory.list_all_keys, bind. rewrite open_table_run.
  destruct (fast_tables w !! _) as [table|] eqn:E; [|reflexivity].
  unfold table_fts, gets, ret. rewrite E. reflexivity.
Qed.

Lemma table_delete_run (p : string) (name : option string) (w : world) :
  (t <- LanceDBMemory._open_table name ;;
   match t with
   | None => ret (Some true)
   | Some table => table_delete table p ;;; ret None
   end) w =
  (Ok match fast_tables w !! name_or name LanceDBMemory.table_name with
      | Some _ => None
      | None => Some true
      end,
   match fast_tables w !! name_or name LanceDBMemory.table_name with
   | Some table =>
       set_fast_tables
         (fun t => <[name_or name LanceDBMemory.table_name :=
                       filter (fun r => sql_where p r = false) table]> t) w
   | None => w
   end).
Proof.
  unfold bind at 1. rewrite open_table_run.
  destruct (fast_tables w !! _) as [table|] eqn:E; [|reflexivity].
  unfold bind, table_delete, modify, ret, set_fast_tables. rewrite E.
  reflexivity.
Qed.

(** X8: on a missing table nothing raises and nothing changes: the
    reads ([list_all_keys], [get], [get_by_metadata]) answer with the
    empty list, [count] with 0, and [delete], [delete_by_metadata] and
    [drop] report [True]. *)
Theorem missing_table_policy (name : option string) (record_id key value : string)
    (n_results : Z) (w : world) :
  fast_tables w !! name_or name LanceDBMemory.table_name = None ->
  LanceDBMemory.list_all_keys name w = (Ok [], w) /\
  LanceDBMemory.get record_id name w = (Ok [], w) /\
  LanceDBMemory.get_by_metadata key value name n_results w = (Ok [], w) /\
  LanceDBMemory.count name w = (Ok O, w) /\
  LanceDBMemory.delete record_id name w = (Ok (Some true), w) /\
  LanceDBMemory.delete_by_metadata key value name w = (Ok (Some true), w) /\
  LanceDBMemory.drop name w = (Ok (Some true), w).
Proof.
  intros Hnone.
  split; [rewrite list_all_keys_run, Hnone; reflexivity|].
  split; [unfold LanceDBMemory.get; rewrite fts_run, Hnone; reflexivity|].
  split; [unfold LanceDBMemory.get_by_metadata; rewrite fts_run, Hnone;
          reflexivity|].
  split; [rewrite count_run; unfold rows; rewrite Hnone; reflexivity|].
  split; [unfold LanceDBMemory.delete; rewrite table_delete_run, Hnone;
          reflexivity|].
  split; [unfold LanceDBMemory.delete_by_metadata;
          rewrite table_delete_run, Hnone; reflexivity|].
  rewrite drop_run, Hnone. f_equal. unfold set_fast_tables.
  rewrite delete_id by exact Hnone. destruct w; reflexivity.
Qed.

(** X9: [get] answers with at most one row and [get_by_metadata], for
    [n_results >= 0], with at most [n_results] rows; every row handed
    out is a row of the table that satisfies the filter text built from
    the arguments; the state is unchanged. *)
Theorem lookups_are_bounded (record_id key value : string)
    (name : option string) (n_results : Z) (w : world) :
  let tn := name_or name LanceDBMemory.table_name in
  (exists hits,
     LanceDBMemory.get record_id name w = (Ok hits, w) /\
     List.length hits <= 1 /\
     forall r, r ∈ hits ->
       r ∈ rows tn w /\ sql_where ("id = '" +:+ record_id +:+ "'") r = true) /\
  ((0 <= n_results)%Z ->
   exists hits,
     LanceDBMemory.get_by_metadata key value name n_results w = (Ok hits, w) /\
     List.length hits <= Z.to_nat n_results /\
     forall r, r ∈ hits ->
       r ∈ rows tn w /\
       sql_where ("metadata." +:+ key +:+ " = '" +:+ value +:+ "'") r = true).
Proof.
  cbv zeta. unfold LanceDBMemory.get, LanceDBMemory.get_by_metadata, rows.
  rewrite !fts_run.
  destruct (fast_tables w !! _) as [table|]; simpl.
  - split; [|intros Hn]; eexists; (split; [reflexivity|]); split.
    + apply (fts_search_limit _ 1%Z). lia.
    + intros r Hr. split; [eapply fts_search_rows|eapply fts_search_where];
        exact Hr.
    + apply fts_search_limit. exact Hn.
    + intros r Hr. split; [eapply fts_search_rows|eapply fts_search_where];
        exact Hr.
  - split; [|intros Hn]; exists []; (split; [reflexivity|]);
      (split; [simpl; lia|]); intros r Hr; apply elem_of_nil in Hr;
      destruct Hr.
Qed.

Lemma no_hit_after_delete (p : string) (n : option Z)
    (table : list (record vector)) :
  fts_search (Some p) n (filter (fun r => sql_where p r = false) table) = [].
Proof.
  destruct (fts_search (Some p) n _) as [|r hits] eqn:E; [reflexivity|].
  assert (r ∈ fts_search (Some p) n
                (filter (fun r => sql_where p r = false) table)) as Hr
    by (rewrite E; left).
  pose proof (fts_search_where _ _ _ _ Hr) as Htrue.
  apply fts_search_rows, list_elem_of_filter in Hr. destruct Hr as [Hfalse _].
  congruence.
Qed.

(** X10: a row deleted is not found again.  After [delete(record_id)],
    [get(record_id)] on the same table is empty, and after
    [delete_by_metadata(key, value)] so is [get_by_metadata(key, value)];
    a delete removes rows of its table only: no row is added, the other
    tables and the slow store are as before. *)
Theorem delete_then_lookup (record_id key value : string)
    (name : option string) (n_results : Z) (w : world) :
  let tn := name_or name LanceDBMemory.table_name in
  (let w' := snd (LanceDBMemory.delete record_id name w) in
   LanceDBMemory.get record_id name w' = (Ok [], w') /\
   (forall r, r ∈ rows tn w' -> r ∈ rows tn w) /\
   (forall other, other <> tn ->
      fast_tables w' !! other = fast_tables w !! other) /\
   slow_items w' = slow_items w) /\
  (let w' := snd (LanceDBMemory.delete_by_metadata key value name w) in
   LanceDBMemory.get_by_metadata key value name n_results w' = (Ok [], w') /\
   (forall r, r ∈ rows tn w' -> r ∈ rows tn w) /\
   (forall other, other <> tn ->
      fast_tables w' !! other = fast_tables w !! other) /\
   slow_items w' = slow_items w).
Proof.
  cbv zeta.
  unfold LanceDBMemory.delete, LanceDBMemory.delete_by_metadata.
  unfold LanceDBMemory.get, LanceDBMemory.get_by_metadata.
  rewrite !table_delete_run. unfold rows.
  destruct (fast_tables w !! name_or name LanceDBMemory.table_name)
    as [table|] eqn:E; simpl.
  - split; (split; [rewrite fts_run; simpl; rewrite lookup_insert_eq,
                      no_hit_after_delete; reflexivity|]);
      (split; [rewrite lookup_insert_eq; simpl; intros r Hr;
               apply list_elem_of_filter in Hr; apply Hr|]);
      (split; [intros other Hne; apply lookup_insert_ne; congruence|
               reflexivity]).
  - split; (split; [rewrite fts_run, E; reflexivity|]);
      (split; [intros r Hr; rewrite E in Hr; exact Hr|]);
      (split; [reflexivity|reflexivity]).
Qed.

(** X11: every key [list_all_keys] lists is the id of a row of the
    table; the state is unchanged. *)
Theorem list_all_keys_are_row_ids (name : option string) (w : world) :
  exists keys,
    LanceDBMemory.list_all_keys name w = (Ok keys, w) /\
    forall k, k ∈ keys ->
      exists r, r ∈ rows (name_or name LanceDBMemory.table_name) w /\
                r_id r = k.
Proof.
  rewrite list_all_keys_run. eexists. split; [reflexivity|].
  unfold rows. destruct (fast_tables w !! _) as [table|]; simpl.
  - intros k Hk. apply list_elem_of_fmap in Hk as (r & -> & Hr).
    exists r. split; [eapply fts_search_rows; exact Hr|reflexivity].
  - intros k Hk. apply elem_of_nil in Hk. destruct Hk.
Qed.

(** X12: the coordinator's [add] writes to the slow store only: the
    fast store and the uuid source are untouched, nothing is raised, and
    the slow client is called with [infer] set exactly when a prompt is
    given. *)
Theorem hybrid_add_writes_slow_only (messages : list message)
    (md : option metadata) (prompt : option string) (w : world) :
  let infer := match prompt with Some _ => true | None => false end in
  let answer :=
    client_add messages md prompt infer (agent_id w) (slow_items w) in
  HybridMemory.add messages md prompt w =
    (Ok (fst answer), set_slow_items (fun _ => snd answer) w) /\
  fast_tables (snd (HybridMemory.add messages md prompt w)) = fast_tables w /\
  uuid_drawn (snd (HybridMemory.add messages md prompt w)) = uuid_drawn w.
Proof.
  cbv zeta. unfold HybridMemory.add, Mem0.add, bind, gets, client_add_call.
  destruct (client_add _ _ _ _ _ _) as [a items]. simpl.
  repeat split.
Qed.
End index_facts.

(** * Further properties of the consolidation jobs *)
Section sorted_any_order.
Context {A K : Type} (key : A -> result K) (lt : K -> K -> result bool).

Lemma decorate_items (l : list A) (d : list (K * A)) :
  decorate key l = Ok d -> map snd d = l.
Proof.
  revert d. induction l as [|x l IH]; intros d; simpl.
  - intros [= <-]. reflexivity.
  - destruct (key x) as [k|e]; [|discriminate]. simpl.
    destruct (decorate key l) as [d'|e]; [|discriminate]. simpl.
    intros [= <-]. simpl. rewrite (IH d' eq_refl). reflexivity.
Qed.

Lemma decorate_keys (l : list A) (d : list (K * A)) :
  decorate key l = Ok d -> Forall (fun p => key (snd p) = Ok (fst p)) d.
Proof.
  revert d. induction l as [|x l IH]; intros d; simpl.
  - intros [= <-]. constructor.
  - destruct (key x) as [k|e] eqn:Hk; [|discriminate]. simpl.
    destruct (decorate key l) as [d'|e]; [|discriminate]. simpl.
    intros [= <-]. constructor; [exact Hk|]. apply IH. reflexivity.
Qed.

Lemma decorate_raises (l : list A) (x : A) (e : exn) :
  x ∈ l -> key x = Raise e -> exists e', decorate key l = Raise e'.
Proof.
  induction l as [|y l IH]; intros Hx Hk.
  - apply elem_of_nil in Hx. destruct Hx.
  - simpl. destruct (key y) as [k|e'] eqn:Hy; [|eauto]. simpl.
    apply elem_of_cons in Hx as [->|Hx]; [congruence|].
    destruct (IH Hx Hk) as [e'' ->]. eauto.
Qed.

Lemma insert_sorted_perm (x : K * A) (l r : list (K * A)) :
  insert_sorted lt x l = Ok r -> r ≡ₚ x :: l.
Proof.
  revert r. induction l as [|y l IH]; intros r; simpl.
  - intros [= <-]. reflexivity.
  - destruct (lt (fst y) (fst x)) as [[|]|e]; simpl; try discriminate.
    + destruct (insert_sorted lt x l) as [r'|e]; [|discriminate]. simpl.
      intros [= <-]. rewrite (IH r' eq_refl). apply perm_swap.
    + intros [= <-]. reflexivity.
Qed.

Lemma sort_asc_perm (l r : list (K * A)) :
  sort_asc lt l = Ok r -> r ≡ₚ l.
Proof.
  revert r. induction l as [|x l IH]; intros r; simpl.
  - intros [= <-]. reflexivity.
  - destruct (sort_asc lt l) as [s|e]; [|discriminate]. simpl.
    intros Hins. apply insert_sorted_perm in Hins.
    rewrite Hins, (IH s eq_refl). reflexivity.
Qed.

(** Whenever [sorted] returns, it returns a rearrangement of its
    argument. *)
Lemma sorted_perm (reverse : bool) (l s : list A) :
  sorted key lt reverse l = Ok s -> s ≡ₚ l.
Proof.
  unfold sorted. destruct (decorate key l) as [d|e] eqn:Hd; [|discriminate].
  simpl. apply decorate_items in Hd. destruct reverse.
  - destruct (sort_asc lt (rev d)) as [r|e] eqn:Hr; [|discriminate]. simpl.
    intros [= <-]. apply sort_asc_perm in Hr.
    rewrite <- Hd. apply Permutation_map.
    rewrite <- (Permutation_rev r), Hr, <- (Permutation_rev d). reflexivity.
  - destruct (sort_asc lt d) as [r|e] eqn:Hr; [|discriminate]. simpl.
    intros [= <-]. apply sort_asc_perm in Hr.
    rewrite <- Hd. apply Permutation_map. exact Hr.
Qed.

Lemma sorted_nil (reverse : bool) : sorted key lt reverse [] = Ok [].
Proof. destruct reverse; reflexivity. Qed.
End sorted_any_order.

Section none_keys.
Context {A : Type}.

Lemma py_lt_none (a b : pyval) :
  a = VNone \/ b = VNone -> py_lt a b = Raise TypeError.
Proof. intros [-> | ->]; [|destruct a]; reflexivity. Qed.

Lemma py_lt_raises (a b : pyval) (e : exn) :
  py_lt a b = Raise e -> e = TypeError.
Proof. destruct a, b; simpl; congruence. Qed.

Lemma insert_sorted_raises (x : pyval * A) (l : list (pyval * A)) (e : exn) :
  insert_sorted py_lt x l = Raise e -> e = TypeError.
Proof.
  induction l as [|y l IH]; simpl; [discriminate|].
  destruct (py_lt (fst y) (fst x)) as [[|]|e'] eqn:Hlt; simpl.
  - destruct (insert_sorted py_lt x l) as [r|e']; simpl; [discriminate|].
    intros [= <-]. apply IH. reflexivity.
  - discriminate.
  - intros [= <-]. eapply py_lt_raises, Hlt.
Qed.

Lemma sort_asc_raises (l : list (pyval * A)) (e : exn) :
  sort_asc py_lt l = Raise e -> e = TypeError.
Proof.
  induction l as [|x l IH]; simpl; [discriminate|].
  destruct (sort_asc py_lt l) as [s|e'] eqn:Hs; simpl.
  - apply insert_sorted_raises.
  - intros [= <-]. apply IH. reflexivity.
Qed.

Lemma sort_asc_none (l : list (pyval * A)) :
  2 <= List.length l -> Exists (fun p => fst p = VNone) l ->
  sort_asc py_lt l = Raise TypeError.
Proof.
  induction l as [|x l IH]; simpl; [lia|]. intros Hlen Hnone.
  destruct (sort_asc py_lt l) as [s|e] eqn:Hs; simpl.
  - pose proof (Permutation_length (sort_asc_perm py_lt l s Hs)) as Hlen'.
    destruct s as [|y s]; [simpl in Hlen'; lia|]. simpl.
    rewrite py_lt_none; [reflexivity|].
    apply Exists_cons in Hnone as [Hx|Hl]; [right; exact Hx|left].
    destruct l as [|z [|z' l]]; [simpl in Hlen; lia| |].
    + simpl in Hs. injection Hs as <- <-.
      apply Exists_cons in Hl as [Hz|Hl]; [exact Hz|].
      apply Exists_nil in Hl. destruct Hl.
    + exfalso. assert (@Ok (list (pyval * A)) (y :: s) = Raise TypeError) as Hbad
        by (apply IH; [simpl; lia|exact Hl]).
      discriminate Hbad.
  - f_equal. eapply sort_asc_raises, Hs.
Qed.
End none_keys.

Section consolidation_more.
Context `{Providers}.

Lemma copies_ids (k : nat) (items : list item) :
  map r_id (copies k items) = map uuid4 (seq k (List.length items)).
Proof.
  revert k. induction items as [|x items IH]; intros k; simpl;
    [reflexivity|].
  destruct (copy_row k x) as (v & _ & ->). simpl. rewrite IH. reflexivity.
Qed.

Lemma uuid_drawn_pushed (items : list item) (w : world) :
  uuid_drawn (pushed items w) = uuid_drawn w + List.length items.
Proof. destruct items; simpl; lia. Qed.

Lemma other_tables_pushed (items : list item) (w : world) (other : string) :
  other <> LanceDBMemory.table_name ->
  fast_tables (pushed items w) !! other = fast_tables w !! other.
Proof.
  intros Hne. destruct items; simpl; [reflexivity|].
  apply lookup_insert_ne. congruence.
Qed.

(** X14: one pulled item with neither [updated_at] nor [created_at]
    (each missing, [None] or the empty string) makes
    [last_n_consolidate] raise, whatever [n] is and however many other
    items are well formed; nothing is pushed.  With no [created_at]
    the key is [fromisoformat(None)], a [TypeError]; with an empty
    [created_at] it is [fromisoformat('')], which the parser rejects. *)
Theorem last_n_needs_timestamps (n limit : Z) (w : world) (x : item) :
  x ∈ take (Z.to_nat limit) (slow_items w) ->
  i_updated_at x = None \/ i_updated_at x = Some "" ->
  i_created_at x = None \/ i_created_at x = Some "" ->
  (exists e, fromisoformat "" = Raise e) ->
  exists e, HybridMemory.last_n_consolidate n limit w = (Raise e, w).
Proof.
  intros Hx Hupdated Hcreated [e0 Hempty]. rewrite last_n_consolidate_run.
  unfold sorted.
  assert (exists e1, HybridMemory.timestamp_key x = Raise e1) as [e1 Hkey].
  { unfold HybridMemory.timestamp_key.
    destruct Hupdated as [-> | ->], Hcreated as [-> | ->]; simpl; eauto. }
  destruct (decorate_raises HybridMemory.timestamp_key _ x e1 Hx Hkey)
    as [e ->].
  exists e. reflexivity.
Qed.

(** X15: when two or more items are pulled, all with a metadata
    mapping, and one of them lacks [metadata_key], its value is [None],
    which compares with nothing: [top_k_consolidate] raises [TypeError]
    and pushes nothing, in either direction of the sort.  A single
    pulled item is never compared: the call returns it (for [k >= 1])
    even without the key. *)
Theorem top_k_needs_the_key (k : Z) (metadata_key : string) (reverse : bool)
    (limit : Z) (w : world) :
  let pulled := take (Z.to_nat limit) (slow_items w) in
  (forall x m,
     (forall y, y ∈ pulled -> is_Some (i_metadata y)) ->
     2 <= List.length pulled ->
     x ∈ pulled -> i_metadata x = Some m -> m !! metadata_key = None ->
     HybridMemory.top_k_consolidate k metadata_key reverse limit w =
       (Raise TypeError, w)) /\
  (forall x,
     pulled = [x] -> is_Some (i_metadata x) -> (1 <= k)%Z ->
     fst (HybridMemory.top_k_consolidate k metadata_key reverse limit w) =
       Ok [x]).
Proof.
  intros pulled. split.
  - intros x m Hmeta Hlen Hx Hm Hkey. rewrite top_k_consolidate_run.
    fold pulled. unfold sorted.
    destruct (decorate_ok (HybridMemory.metadata_field metadata_key)
                (fun _ => True) pulled) as (d & -> & Hd & Hkd).
    { intros y Hy. destruct (Hmeta y Hy) as [my Hmy].
      unfold HybridMemory.metadata_field. rewrite Hmy. eauto. }
    simpl.
    assert (Exists (fun p : pyval * item => fst p = VNone) d) as Hnone.
    { apply Exists_exists. rewrite <- Hd in Hx.
      apply list_elem_of_fmap in Hx as (p & -> & Hp). exists p.
      split; [exact Hp|]. rewrite Forall_forall in Hkd.
      destruct (Hkd p Hp) as [Hk _].
      unfold HybridMemory.metadata_field in Hk. rewrite Hm, Hkey in Hk.
      simpl in Hk. congruence. }
    assert (List.length d = List.length pulled) as Hlend
      by (rewrite <- Hd, length_map; reflexivity).
    destruct reverse.
    + rewrite sort_asc_none; [reflexivity|rewrite length_rev; lia|].
      apply Exists_exists in Hnone as (p & Hp & Hpn).
      apply Exists_exists. exists p. split; [|exact Hpn].
      apply list_elem_of_In, in_rev. rewrite rev_involutive.
      apply list_elem_of_In. exact Hp.
    + rewrite sort_asc_none; [reflexivity|lia|exact Hnone].
  - intros x Hpulled [m Hm] Hk. rewrite top_k_consolidate_run.
    fold pulled. rewrite Hpulled. unfold sorted. simpl.
    unfold HybridMemory.metadata_field. rewrite Hm. simpl.
    destruct reverse; simpl; unfold slice_to;
      (destruct (Z.leb_spec 0 k); [|lia]);
      (destruct (Z.to_nat k) eqn:Ek; [lia|simpl; rewrite take_nil; reflexivity]).
Qed.

(** X16: consolidation does not deduplicate.  A job run again on the
    state its first run left selects the same items and appends their
    texts a second time (under new ids). *)
Theorem consolidation_twice_duplicates (n k limit : Z) (metadata_key : string)
    (reverse : bool) (w w1 : world) (selected : list item) :
  (HybridMemory.last_n_consolidate n limit w = (Ok selected, w1) ->
   exists w2,
     HybridMemory.last_n_consolidate n limit w1 = (Ok selected, w2) /\
     map r_text (rows LanceDBMemory.table_name w2) =
       map r_text (rows LanceDBMemory.table_name w) ++
       map i_memory selected ++ map i_memory selected) /\
  (HybridMemory.top_k_consolidate k metadata_key reverse limit w =
     (Ok selected, w1) ->
   exists w2,
     HybridMemory.top_k_consolidate k metadata_key reverse limit w1 =
       (Ok selected, w2) /\
     map r_text (rows LanceDBMemory.table_name w2) =
       map r_text (rows LanceDBMemory.table_name w) ++
       map i_memory selected ++ map i_memory selected).
Proof.
  split; intros Hrun.
  - rewrite last_n_consolidate_run in Hrun.
    destruct (sorted _ _ _ _) as [s|e] eqn:Hs; [|discriminate].
    injection Hrun as <- <-.
    exists (pushed (slice_to n s) (pushed (slice_to n s) w)).
    rewrite last_n_consolidate_run, slow_items_pushed, Hs.
    split; [reflexivity|].
    rewrite !rows_pushed, !map_app, !copies_texts, <- app_assoc.
    reflexivity.
  - rewrite top_k_consolidate_run in Hrun.
    destruct (sorted _ _ _ _) as [s|e] eqn:Hs; [|discriminate].
    injection Hrun as <- <-.
    exists (pushed (slice_to k s) (pushed (slice_to k s) w)).
    rewrite top_k_consolidate_run, slow_items_pushed, Hs.
    split; [reflexivity|].
    rewrite !rows_pushed, !map_app, !copies_texts, <- app_assoc.
    reflexivity.
Qed.

(** X17: on an empty slow store both jobs return the empty list and
    change nothing; in particular the fast store's table is not
    created. *)
Theorem consolidation_of_nothing (n k limit : Z) (metadata_key : string)
    (reverse : bool) (w : world) :
  slow_items w = [] ->
  HybridMemory.last_n_consolidate n limit w = (Ok [], w) /\
  HybridMemory.top_k_consolidate k metadata_key reverse limit w = (Ok [], w).
Proof.
  intros Hempty.
  rewrite last_n_consolidate_run, top_k_consolidate_run, Hempty, take_nil.
  rewrite !sorted_nil.
  assert (forall z, @slice_to item z [] = []) as Hslice.
  { intros z. unfold slice_to. destruct (0 <=? z)%Z; apply take_nil. }
  rewrite !Hslice. split; reflexivity.
Qed.

(** X18: what a consolidation that returns has selected: items of the
    slow store, none twice over what was pulled; for a bound [n >= 0]
    it selects [min(n, pulled)] items, all that was pulled when [n] is
    at least their number, and for [n < 0] all but [|n|] of them. *)
Theorem consolidation_selection_bounds (n k limit : Z) (metadata_key : string)
    (reverse : bool) (w w' : world) (selected : list item) (bound : Z) :
  HybridMemory.last_n_consolidate n limit w = (Ok selected, w') /\ bound = n \/
  HybridMemory.top_k_consolidate k metadata_key reverse limit w =
    (Ok selected, w') /\ bound = k ->
  let pulled := take (Z.to_nat limit) (slow_items w) in
  selected ⊆+ pulled /\
  ((0 <= bound)%Z ->
   List.length selected = min (Z.to_nat bound) (List.length pulled)) /\
  ((Z.of_nat (List.length pulled) <= bound)%Z -> selected ≡ₚ pulled) /\
  ((bound < 0)%Z ->
   List.length selected = List.length pulled - Z.to_nat (- bound)).
Proof.
  intros Hrun pulled.
  assert (exists s, s ≡ₚ pulled /\ selected = slice_to bound s)
    as (s & Hperm & ->).
  { destruct Hrun as [[Hrun ->]|[Hrun ->]].
    - rewrite last_n_consolidate_run in Hrun. fold pulled in Hrun.
      destruct (sorted _ _ _ _) as [s|e] eqn:Hs; [|discriminate].
      exists s. split; [eapply sorted_perm, Hs|congruence].
    - rewrite top_k_consolidate_run in Hrun. fold pulled in Hrun.
      destruct (sorted _ _ _ _) as [s|e] eqn:Hs; [|discriminate].
      exists s. split; [eapply sorted_perm, Hs|congruence]. }
  pose proof (Permutation_length Hperm) as Hlen.
  unfold slice_to. destruct (Z.leb_spec 0 bound) as [Hb|Hb].
  - split; [rewrite <- Hperm; apply sublist_submseteq, sublist_take|].
    split; [intros _; rewrite length_take, Hlen; reflexivity|].
    split; [|lia].
    intros Hall. rewrite take_ge by lia. exact Hperm.
  - split; [rewrite <- Hperm; apply sublist_submseteq, sublist_take|].
    split; [lia|]. split; [lia|].
    intros _. rewrite length_take, Hlen. lia.
Qed.

Lemma drawn_ids_pushed (items : list item) (w : world) :
  drawn_ids LanceDBMemory.table_name w ->
  drawn_ids LanceDBMemory.table_name (pushed items w).
Proof.
  intros (ks & Hids & Hnd & Hlt).
  exists (ks ++ seq (uuid_drawn w) (List.length items)).
  rewrite rows_pushed, uuid_drawn_pushed, !map_app, copies_ids, Hids.
  split; [reflexivity|]. rewrite Forall_forall in Hlt. split.
  - apply NoDup_app. split; [exact Hnd|]. split; [|apply NoDup_seq].
    intros x Hx Hin. apply elem_of_seq in Hin. specialize (Hlt x Hx). lia.
  - apply Forall_app. split; apply Forall_forall; intros x Hx.
    + specialize (Hlt x Hx). lia.
    + apply elem_of_seq in Hx. lia.
Qed.

Lemma drawn_ids_add (ts : list string) (meta : metadata_arg)
    (name : option string) (w : world) :
  drawn_ids (name_or name LanceDBMemory.table_name) w ->
  drawn_ids (name_or name LanceDBMemory.table_name)
            (snd (LanceDBMemory.add (TextsList ts) meta name None w)).
Proof.
  intros (ks & Hids & Hnd & Hlt).
  assert ((exists ms, match meta with
            | MetaNone => ms = replicate (List.length ts) None
            | MetaDict d => ms = [Some d]
            | MetaList l => ms = l /\ List.length ts = List.length l
            end) \/ exists l, meta = MetaList l /\
                              List.length ts <> List.length l)
    as [[ms Hms]|(l & -> & Hlen)].
  { destruct meta as [|d|l]; [left; eexists; reflexivity..|].
    destruct (decide (List.length ts = List.length l)).
    - left. exists l. split; [reflexivity|assumption].
    - right. eauto. }
  - rewrite (add_run ts meta ms) by exact Hms. cbv zeta. simpl.
    set (data := LanceDBMemory.build_data _ _ _ _).
    exists (ks ++ take (List.length data)
                       (seq (uuid_drawn w) (List.length ts))).
    unfold rows at 1. simpl. rewrite lookup_insert_eq. simpl.
    rewrite !map_app, Hids. unfold data at 1.
    rewrite build_data_ids_prefix. fold data.
    rewrite <- fmap_take. split; [reflexivity|].
    rewrite Forall_forall in Hlt. split.
    + apply NoDup_app. split; [exact Hnd|]. split.
      * intros x Hx Hin. apply subseteq_take, elem_of_seq in Hin.
        specialize (Hlt x Hx). lia.
      * apply (sublist_NoDup _ (seq (uuid_drawn w) (List.length ts)));
          [apply NoDup_seq|apply sublist_take].
    + apply Forall_app. split; apply Forall_forall; intros x Hx.
      * specialize (Hlt x Hx). lia.
      * apply subseteq_take, elem_of_seq in Hx. lia.
  - rewrite add_length_mismatch by exact Hlen. exists ks. auto.
Qed.

(** X19: ids stay unique.  If no two draws of the uuid source collide,
    a table whose ids are uuids drawn so far, each once (a missing table
    is one), is again such a table after any [add] without explicit ids
    and after either consolidation, whether the call returns or raises;
    the ids of such a table are pairwise distinct. *)
Theorem ids_stay_unique (texts : texts_arg) (meta : metadata_arg)
    (name : option string) (n k limit : Z) (metadata_key : string)
    (reverse : bool) (w : world) :
  Inj (=) (=) uuid4 ->
  let tn := name_or name LanceDBMemory.table_name in
  (fast_tables w !! tn = None -> drawn_ids tn w) /\
  (drawn_ids tn w -> NoDup (map r_id (rows tn w))) /\
  (drawn_ids tn w ->
   drawn_ids tn (snd (LanceDBMemory.add texts meta name None w))) /\
  (drawn_ids LanceDBMemory.table_name w ->
   drawn_ids LanceDBMemory.table_name
     (snd (HybridMemory.last_n_consolidate n limit w)) /\
   drawn_ids LanceDBMemory.table_name
     (snd (HybridMemory.top_k_consolidate k metadata_key reverse limit w))).
Proof.
  intros Hinj tn. split.
  { intros Hnone. exists []. unfold rows. rewrite Hnone.
    split; [reflexivity|]. split; constructor. }
  split.
  { intros (ks & -> & Hnd & _). apply (NoDup_fmap_2 uuid4). exact Hnd. }
  split.
  { intros Hd. destruct texts as [s|ts].
    - exact (drawn_ids_add [s] meta name w Hd).
    - exact (drawn_ids_add ts meta name w Hd). }
  intros Hd. rewrite last_n_consolidate_run, top_k_consolidate_run.
  split; destruct (sorted _ _ _ _); simpl;
    try exact Hd; apply drawn_ids_pushed; exact Hd.
Qed.

(** X20: with [fast_query] set (the default) the coordinator's [query]
    reads the fast store's default table only and changes nothing: on a
    missing table it answers with the empty list, otherwise with a list
    of one entry, the hits of the search for the query's embedding. *)
Theorem hybrid_query_fast_shape (query : string) (n_results : Z) (w : world) :
  (fast_tables w !! LanceDBMemory.table_name = None ->
   HybridMemory.query query n_results true w = (Ok [], w)) /\
  (forall table,
     fast_tables w !! LanceDBMemory.table_name = Some table ->
     exists v,
       compute_source_embeddings [query] = [v] /\
       HybridMemory.query query n_results true w =
         (Ok [HybridMemory.FastResults (table_search v n_results table)], w)).
Proof.
  split.
  - intros Hnone. unfold HybridMemory.query, bind. rewrite query_run. simpl.
    rewrite Hnone. reflexivity.
  - intros table Htable. pose proof (embeddings_length [query]) as Hlen.
    destruct (compute_source_embeddings [query]) as [|v [|v' vs]] eqn:E;
      try discriminate.
    exists v. split; [reflexivity|].
    unfold HybridMemory.query, bind. rewrite query_run. simpl.
    rewrite Htable, E. reflexivity.
Qed.
End consolidation_more.

(** * The model loader and the summarizer *)
Section loader_facts.
Variable get_config : string -> gmap string string.

Ltac split_platform :=
  unfold MleModel.MODEL_OLLAMA, MleModel.MODEL_OPENAI, MleModel.MODEL_CLAUDE,
    MleModel.MODEL_MISTRAL, MleModel.MODEL_DEEPSEEK, MleModel.MODEL_GEMINI,
    MleModel.MODEL_VLLM in *;
  repeat match goal with
         | |- context [decide (?a = ?b)] =>
             destruct (decide (a = b)) as [?|?]; subst; try discriminate
         end.

(** What [load_model] computes, by platform. *)
Lemma load_model_run (project_dir : string) (model_name : option string)
    (observable : bool) :
  let config := get_config project_dir in
  let wrap m := if observable then MleModel.ObservableModel m
                else MleModel.Bare m in
  let keyed (make : string -> option string -> MleModel.Model) :=
    match config !! "api_key" with
    | Some api_key => Ok (wrap (Some (make api_key model_name)))
    | None => Raise KeyError
    end in
  MleModel.load_model get_config project_dir model_name observable =
    match config !! "platform" with
    | None => Raise KeyError
    | Some p =>
        if decide (p = MleModel.MODEL_OLLAMA) then
          Ok (wrap (Some (MleModel.OllamaModel model_name
                            (config !! "base_url"))))
        else if decide (p = MleModel.MODEL_OPENAI) then
          keyed MleModel.OpenAIModel
        else if decide (p = MleModel.MODEL_CLAUDE) then
          keyed MleModel.ClaudeModel
        else if decide (p = MleModel.MODEL_MISTRAL) then
          keyed MleModel.MistralModel
        else if decide (p = MleModel.MODEL_DEEPSEEK) then
          keyed MleModel.DeepSeekModel
        else if decide (p = MleModel.MODEL_GEMINI) then
          keyed MleModel.GeminiModel
        else if decide (p = MleModel.MODEL_VLLM) then
          Ok (wrap (Some (MleModel.vLLMModel
                            (default "http://localhost:8000/v1"
                                     (config !! "base_url")) model_name)))
        else Ok (wrap None)
    end.
Proof.
  cbv zeta. unfold MleModel.load_model, getitem.
  destruct (get_config project_dir !! "platform") as [p|]; [|reflexivity].
  cbn [rbind].
  split_platform; try congruence; cbn;
    destruct (get_config project_dir !! "api_key"), observable; reflexivity.
Qed.
(** X21: the dispatch of [load_model].  Whenever it returns, the value
    is wrapped in an [ObservableModel] exactly when [observable] is set;
    the model inside is the adapter of the configured platform, built
    with the model name passed in; for a platform that is none of the
    seven known ones the model inside is [None], and no error is
    raised. *)
Theorem load_model_dispatch (project_dir : string)
    (model_name : option string) (observable : bool) (l : MleModel.loaded) :
  MleModel.load_model get_config project_dir model_name observable = Ok l ->
  l = (if observable then MleModel.ObservableModel (MleModel.wrapped l)
       else MleModel.Bare (MleModel.wrapped l)) /\
  exists p,
    get_config project_dir !! "platform" = Some p /\
    match MleModel.wrapped l with
    | Some m =>
        MleModel.platform_of m = p /\ MleModel.model_name_of m = model_name
    | None => p ∉ MleModel.platforms
    end.
Proof.
  rewrite load_model_run. cbv zeta.
  destruct (get_config project_dir !! "platform") as [p|]; [|discriminate].
  split_platform;
    destruct (get_config project_dir !! "api_key"), observable;
    intros [= <-]; (split; [reflexivity|]); eexists; (split; [reflexivity|]);
    simpl; try (split; reflexivity);
    unfold MleModel.platforms; rewrite !elem_of_cons, elem_of_nil;
    unfold MleModel.MODEL_OLLAMA, MleModel.MODEL_OPENAI, MleModel.MODEL_CLAUDE,
      MleModel.MODEL_MISTRAL, MleModel.MODEL_DEEPSEEK, MleModel.MODEL_GEMINI,
      MleModel.MODEL_VLLM; tauto.
Qed.

(** X22: [load_model] raises only a [KeyError], and exactly when the
    configuration has no [platform], or names one of the five platforms
    that need a key (OpenAI, Claude, MistralAI, DeepSeek, Gemini) and
    has no [api_key]; Ollama and vLLM load without one. *)
Theorem load_model_raises_iff (project_dir : string)
    (model_name : option string) (observable : bool) (e : exn) :
  MleModel.load_model get_config project_dir model_name observable = Raise e
  <->
  e = KeyError /\
  (get_config project_dir !! "platform" = None \/
   exists p, get_config project_dir !! "platform" = Some p /\
             p ∈ MleModel.keyed_platforms /\
             get_config project_dir !! "api_key" = None).
Proof.
  rewrite load_model_run. cbv zeta. unfold MleModel.keyed_platforms.
  destruct (get_config project_dir !! "platform") as [p|].
  - split_platform;
      destruct (get_config project_dir !! "api_key") as [key|];
      (split; [intros Hrun|intros (-> & [Hp|(q & Hq & Hin & Hnone)])]);
      try discriminate; try reflexivity;
      try (injection Hrun as <-; split; [reflexivity|]; right; eexists;
           split; [reflexivity|]; split; [|reflexivity];
           rewrite !elem_of_cons; tauto);
      injection Hq as <-; rewrite !elem_of_cons, elem_of_nil in Hin;
      exfalso; intuition congruence.
  - split; [intros [= <-]; auto|]. intros [-> _]. reflexivity.
Qed.

(** X23: the fast store's constructor follows the same platform names.
    On every configuration on which [load_model] returns, the
    constructor's choice of embedding returns too: the OpenAI embedding,
    with the configured key, exactly when the loaded model is the OpenAI
    adapter, and the sentence-transformers model otherwise. *)
Theorem embedding_follows_platform (project_dir : string)
    (model_name : option string) (observable : bool) (l : MleModel.loaded) :
  MleModel.load_model get_config project_dir model_name observable = Ok l ->
  LanceDBMemory.__init__ (get_config project_dir) =
    Ok match MleModel.wrapped l with
       | Some (MleModel.OpenAIModel api_key _) =>
           LanceDBMemory.OpenAIEmbedding api_key
       | _ => LanceDBMemory.SentenceTransformers
                "sentence-transformers/paraphrase-MiniLM-L6-v2"
       end.
Proof.
  rewrite load_model_run. cbv zeta. unfold LanceDBMemory.__init__, getitem.
  destruct (get_config project_dir !! "platform") as [p|]; [|discriminate].
  cbn [rbind].
  split_platform;
    destruct (get_config project_dir !! "api_key"), observable;
    intros [= <-]; simpl;
    repeat match goal with
           | |- context [decide (?a = ?b)] =>
               destruct (decide (a = b)) as [?|?]; try congruence
           end; reflexivity.
Qed.
End loader_facts.

Section summarizer_facts.
Variables sys_prompt json_mode_prompt : string.
Variable get_readme : string -> string.
Variable get_issues : string -> bool -> list SummaryAgent.issue.
Variable get_structure : string -> bool -> list string.
Variable model_query : list SummaryAgent.chat -> result string.
Variable json : Type.
Variable json_loads : string -> result json.

Local Abbreviation summarize :=
  (SummaryAgent.summarize get_readme get_issues get_structure model_query
     json json_loads).
Local Abbreviation summarize_times :=
  (SummaryAgent.summarize_times get_readme get_issues get_structure
     model_query json json_loads).
Local Abbreviation process_knowledge :=
  (SummaryAgent.process_knowledge get_readme get_issues get_structure).

(** X24: what [summarize] does to the chat history.  The messages held
    before stay, in place; the knowledge text is appended as a [user]
    message before the model is asked; if the model call raises, that
    message stays and the error propagates; if the model answers, its
    text is appended as an [assistant] message and the result is
    [json.loads] of it, so a reply that is no JSON is recorded all the
    same while the parse error propagates. *)
Theorem summarize_history (a : SummaryAgent.agent) :
  let user := SummaryAgent.mk_chat "user" (process_knowledge a) in
  let asked := SummaryAgent.chat_history a ++ [user] in
  SummaryAgent.github_repo (snd (summarize a)) = SummaryAgent.github_repo a /\
  (forall e, model_query asked = Raise e ->
     fst (summarize a) = Raise e /\
     SummaryAgent.chat_history (snd (summarize a)) = asked) /\
  (forall text, model_query asked = Ok text ->
     fst (summarize a) = json_loads text /\
     SummaryAgent.chat_history (snd (summarize a)) =
       asked ++ [SummaryAgent.mk_chat "assistant" text]).
Proof.
  cbv zeta. unfold SummaryAgent.summarize. simpl.
  destruct (model_query _) as [text|e]; simpl.
  - split; [reflexivity|]. split; [discriminate|].
    intros ? [= <-]. split; reflexivity.
  - split; [reflexivity|]. split; [|discriminate].
    intros ? [= <-]. split; reflexivity.
Qed.

Lemma summarize_times_roles (k : nat) (a : SummaryAgent.agent) :
  (forall h, exists text, model_query h = Ok text) ->
  map SummaryAgent.role (SummaryAgent.chat_history (summarize_times k a)) =
    map SummaryAgent.role (SummaryAgent.chat_history a) ++
    List.concat (replicate k ["user"; "assistant"]).
Proof.
  intros Hq. revert a. induction k as [|k IH]; intros a; simpl.
  - rewrite app_nil_r. reflexivity.
  - rewrite IH. unfold SummaryAgent.summarize at 1. simpl.
    destruct (Hq (SummaryAgent.chat_history a ++
                  [SummaryAgent.mk_chat "user" (process_knowledge a)]))
      as [text ->].
    simpl. rewrite !map_app, <- !app_assoc. reflexivity.
Qed.

Lemma summarize_times_prefix (k : nat) (a : SummaryAgent.agent) :
  exists added,
    SummaryAgent.chat_history (summarize_times k a) =
      SummaryAgent.chat_history a ++ added /\
    k <= List.length added <= 2 * k.
Proof.
  revert a. induction k as [|k IH]; intros a; simpl.
  - exists []. rewrite app_nil_r. split; [reflexivity|simpl; lia].
  - destruct (IH (snd (summarize a))) as (added & -> & Hlen).
    unfold SummaryAgent.summarize. simpl.
    destruct (model_query _) as [text|e]; simpl.
    + exists ([SummaryAgent.mk_chat "user" (process_knowledge a);
               SummaryAgent.mk_chat "assistant" text] ++ added).
      rewrite <- !app_assoc. split; [reflexivity|].
      rewrite length_app. simpl. lia.
    + exists ([SummaryAgent.mk_chat "user" (process_knowledge a)] ++ added).
      rewrite <- !app_assoc. split; [reflexivity|].
      rewrite length_app. simpl. lia.
Qed.

(** X25: the history over [k] calls of [summarize] on a fresh agent.
    It always starts with the system message (the two prompt texts
    joined) and keeps between [k] and [2k] further messages; when the
    model answers every call, the roles are [system] followed by [k]
    pairs [user], [assistant], whether or not the replies parse as
    JSON. *)
Theorem summarize_times_history (k : nat) (repo : string) :
  let a := SummaryAgent.__init__ sys_prompt json_mode_prompt repo in
  (exists added,
     SummaryAgent.chat_history (summarize_times k a) =
       SummaryAgent.mk_chat "system" (sys_prompt +:+ json_mode_prompt) ::
       added /\
     k <= List.length added <= 2 * k) /\
  ((forall h, exists text, model_query h = Ok text) ->
   map SummaryAgent.role (SummaryAgent.chat_history (summarize_times k a)) =
     "system" :: List.concat (replicate k ["user"; "assistant"])).
Proof.
  cbv zeta. split.
  - destruct (summarize_times_prefix k
                (SummaryAgent.__init__ sys_prompt json_mode_prompt repo))
      as (added & -> & Hlen).
    exists added. split; [reflexivity|exact Hlen].
  - intros Hq. rewrite summarize_times_roles by exact Hq. reflexivity.
Qed.
End summarizer_facts.

Section composition_facts.
Context `{Providers}.

(** X26: after a consolidation that returns a non-empty selection the
    fast store's default table exists: its [count] has grown by the
    number of selected items, and the coordinator's [query] (fast only)
    answers with one result list, the search of that table, not with
    the empty list of a missing table. *)
Theorem query_after_consolidation (n k limit : Z) (metadata_key : string)
    (reverse : bool) (w w' : world) (selected : list item)
    (query : string) (n_results : Z) :
  HybridMemory.last_n_consolidate n limit w = (Ok selected, w') \/
  HybridMemory.top_k_consolidate k metadata_key reverse limit w =
    (Ok selected, w') ->
  selected <> [] ->
  LanceDBMemory.count None w' =
    (Ok (List.length (rows LanceDBMemory.table_name w) +
         List.length selected), w') /\
  exists v table,
    compute_source_embeddings [query] = [v] /\
    fast_tables w' !! LanceDBMemory.table_name = Some table /\
    HybridMemory.query query n_results true w' =
      (Ok [HybridMemory.FastResults (table_search v n_results table)], w').
Proof.
  intros Hrun Hsel.
  assert (w' = pushed selected w) as ->.
  { destruct Hrun as [Hrun|Hrun].
    - rewrite last_n_consolidate_run in Hrun.
      destruct (sorted _ _ _ _); congruence.
    - rewrite top_k_consolidate_run in Hrun.
      destruct (sorted _ _ _ _); congruence. }
  split.
  - rewrite count_run. simpl name_or. rewrite rows_pushed, length_app.
    rewrite <- (length_map r_text (copies _ _)), copies_texts, length_map.
    reflexivity.
  - pose proof (embeddings_length [query]) as Hlen.
    destruct (compute_source_embeddings [query]) as [|v [|v' vs]] eqn:E;
      try discriminate.
    destruct selected as [|x selected]; [contradiction|].
    assert (fast_tables (pushed (x :: selected) w)
              !! LanceDBMemory.table_name =
            Some (rows LanceDBMemory.table_name w ++
                  copies (uuid_drawn w) (x :: selected))) as Hlook
      by (simpl; apply lookup_insert_eq).
    exists v. eexists. split; [reflexivity|]. split; [exact Hlook|].
    unfold HybridMemory.query, bind. rewrite query_run.
    change (name_or None LanceDBMemory.table_name)
      with LanceDBMemory.table_name.
    rewrite Hlook, E. reflexivity.
Qed.

(** X27: after the coordinator's [reset], with either flag, a
    consolidation finds nothing to promote: it returns the empty list
    and leaves the state the reset produced, so the default [reset]
    keeps the fast tier exactly as it was before. *)
Theorem consolidation_after_reset (only_reset_slow_memory : bool)
    (n k limit : Z) (metadata_key : string) (reverse : bool) (w : world) :
  let w' := snd (HybridMemory.reset only_reset_slow_memory w) in
  HybridMemory.last_n_consolidate n limit w' = (Ok [], w') /\
  HybridMemory.top_k_consolidate k metadata_key reverse limit w' =
    (Ok [], w') /\
  (only_reset_slow_memory = true -> fast_tables w' = fast_tables w).
Proof.
  cbv zeta.
  assert (slow_items (snd (HybridMemory.reset only_reset_slow_memory w)) = [])
    as Hempty.
  { unfold HybridMemory.reset, Mem0.reset, client_reset. unfold bind at 1.
    unfold modify at 1. cbv beta iota.
    destruct only_reset_slow_memory; [reflexivity|]. unfold negb.
    unfold LanceDBMemory.reset, bind. rewrite drop_run. reflexivity. }
  rewrite last_n_consolidate_run, top_k_consolidate_run, Hempty, take_nil.
  rewrite !sorted_nil.
  assert (forall z, @slice_to item z [] = []) as Hslice.
  { intros z. unfold slice_to. destruct (0 <=? z)%Z; apply take_nil. }
  rewrite !Hslice. split; [reflexivity|]. split; [reflexivity|].
  intros ->. reflexivity.
Qed.
End composition_facts.

(** * Runs of the model *)

#[local] Existing Instance Demo.providers.

(** C9 as stated fails: the fast-tier copy [top_k_consolidate] makes of
    an item with metadata has none. *)
Lemma top_k_copy_loses_metadata :
  let x := Demo.ranked "m2" "tuned the learning rate" 5 in
  let run := HybridMemory.top_k_consolidate 1 "priority" false 1000
               (Demo.empty_world [x]) in
  fst run = Ok [x] /\
  i_metadata x = Some {[ "priority" := VInt 5 ]} /\
  map r_text (rows LanceDBMemory.table_name (snd run)) = [i_memory x] /\
  map r_metadata (rows LanceDBMemory.table_name (snd run)) = [None] /\
  map r_metadata (rows LanceDBMemory.table_name (snd run)) <> [i_metadata x].
Proof.
  intros x run.
  assert (map r_metadata (rows LanceDBMemory.table_name (snd run)) = [None])
    as Hnone by reflexivity.
  repeat (split; [reflexivity|]).
  rewrite Hnone. discriminate.
Qed.

Lemma last_n_consolidate_witness :
  let w := Demo.empty_world
             [Demo.dated "m1" "ran the baseline" "2024-01-01";
              mk_item "m2" "tuned the learning rate" None
                      (Some "2024-03-01") None;
              Demo.dated "m3" "added cross validation" "2024-02-01"] in
  let stamp := fun x : item =>
    match fromisoformat (default (default "" (i_created_at x))
                                 (i_updated_at x)) with
    | Ok d => d
    | Raise _ => (1, 1, 1)%Z
    end in
  (forall x, x ∈ take (Z.to_nat 1000) (slow_items w) ->
     exists s, timestamp_of x s /\ fromisoformat s = Ok (stamp x) /\
               tz_aware (stamp x) = false) /\
  exists ordered w',
    HybridMemory.last_n_consolidate 2 1000 w = (Ok (slice_to 2 ordered), w') /\
    ordered ≡ₚ take (Z.to_nat 1000) (slow_items w) /\
    StronglySorted (fun x y => earlier (stamp x) (stamp y) = false) ordered /\
    ((0 <= 2)%Z -> slice_to 2 ordered = take (Z.to_nat 2) ordered) /\
    map r_text (rows LanceDBMemory.table_name w') =
      map r_text (rows LanceDBMemory.table_name w) ++
      map i_memory (slice_to 2 ordered) /\
    slow_items w' = slow_items w.
Proof.
  intros w stamp.
  assert (forall x, x ∈ take (Z.to_nat 1000) (slow_items w) ->
            exists s, timestamp_of x s /\ fromisoformat s = Ok (stamp x) /\
                      tz_aware (stamp x) = false) as Hkeys.
  { intros x Hx. vm_compute in Hx.
    repeat (apply elem_of_cons in Hx as [->|Hx]).
    - exists "2024-01-01". split; [|split; reflexivity].
      apply from_updated_at; [reflexivity|discriminate].
    - exists "2024-03-01". split; [|split; reflexivity].
      apply from_created_at; [left; reflexivity|reflexivity].
    - exists "2024-02-01". split; [|split; reflexivity].
      apply from_updated_at; [reflexivity|discriminate].
    - apply elem_of_nil in Hx. destruct Hx. }
  split; [exact Hkeys|].
  exact (proj1 last_n_consolidate_spec Demo.providers 2%Z 1000%Z false stamp w
           Hkeys).
Defined.

(** C4 as stated fails: both items carry an [updated_at] that parses,
    one naive and one aware of its time zone; the two do not compare,
    and [last_n_consolidate] raises instead of returning the items in
    descending order. *)
Lemma last_n_mixed_awareness_raises :
  let jan := mk_item "m1" "ran the baseline" None None (Some "2024-01-01") in
  let mar := mk_item "m2" "tuned the learning rate" None None
                     (Some "2024-03-01T00:00:00+00:00") in
  let w := DemoAware.empty_world [jan; mar] in
  @fromisoformat DemoAware.providers "2024-01-01" = Ok ((2024, 1, 1)%Z, false) /\
  @fromisoformat DemoAware.providers "2024-03-01T00:00:00+00:00" =
    Ok ((2024, 3, 1)%Z, true) /\
  @HybridMemory.last_n_consolidate DemoAware.providers 2 1000 w =
    (Raise TypeError, w).
Proof. repeat split; reflexivity. Qed.



Lemma consolidation_copies_without_metadata_witness :
  let x := Demo.ranked "m2" "tuned the learning rate" 5 in
  let w := Demo.empty_world [Demo.ranked "m1" "ran the baseline" 1; x] in
  let w' := snd (HybridMemory.top_k_consolidate 1 "priority" true 1000 w) in
  (HybridMemory.last_n_consolidate 1 1000 w = (Ok [x], w') \/
   HybridMemory.top_k_consolidate 1 "priority" true 1000 w = (Ok [x], w')) /\
  exists new,
    rows LanceDBMemory.table_name w' = rows LanceDBMemory.table_name w ++ new /\
    map r_text new = map i_memory [x] /\
    Forall (fun r => r_metadata r = None) new.
Proof.
  intros x w w'.
  assert (HybridMemory.top_k_consolidate 1 "priority" true 1000 w =
            (Ok [x], w')) as Hrun by reflexivity.
  split; [right; exact Hrun|].
  exact (consolidation_copies_without_metadata 1%Z 1%Z 1000%Z "priority" true
           w w' [x] (or_intror Hrun)).
Defined.

(** Values of two types under the key do not sort: the comparison raises
    and nothing is pushed. *)
Lemma top_k_mixed_types_raise :
  let w := Demo.empty_world
             [Demo.ranked "m1" "ran the baseline" 1;
              mk_item "m2" "tuned the learning rate"
                      (Some {[ "priority" := VStr "high" ]}) None None] in
  HybridMemory.top_k_consolidate 1 "priority" false 1000 w =
    (Raise TypeError, w).
Proof. reflexivity. Qed.

(** A negative bound is Python's slice from the end: [items[:-1]] keeps
    all but the last of the sorted items. *)
Lemma last_n_negative_bound :
  let jan := Demo.dated "m1" "ran the baseline" "2024-01-01" in
  let mar := Demo.dated "m2" "tuned the learning rate" "2024-03-01" in
  let feb := Demo.dated "m3" "added cross validation" "2024-02-01" in
  fst (HybridMemory.last_n_consolidate (-1) 1000
         (Demo.empty_world [jan; mar; feb])) = Ok [mar; feb].
Proof. reflexivity. Qed.

(** The failing input of C1, run: two texts, one mapping, one row. *)
Lemma add_single_mapping_two_texts :
  let run := LanceDBMemory.add (TextsList ["a"; "b"])
               (MetaDict {[ "source" := VStr "notes" ]}) None None
               (Demo.empty_world []) in
  fst run = Ok ["uuid-0"; "uuid-1"] /\
  map r_text (rows LanceDBMemory.table_name (snd run)) = ["a"].
Proof. split; reflexivity. Qed.

(** ** Runs of the further properties *)

#[local] Existing Instance DemoServices.services.

Lemma add_metadata_list_contract_witness :
  let ts := ["a"; "b"] in
  let l := [Some {[ "source" := VStr "notes" ]}; None] in
  let w := Demo.empty_world [] in
  List.length ts = List.length l /\
  exists new w',
    LanceDBMemory.add (TextsList ts) (MetaList l) None None w =
      (Ok (map uuid4 (seq (uuid_drawn w) (List.length ts))), w') /\
    rows (name_or None LanceDBMemory.table_name) w' =
      rows (name_or None LanceDBMemory.table_name) w ++ new /\
    map r_text new = ts /\ map r_metadata new = l.
Proof.
  intros ts l w. split; [reflexivity|].
  exact (proj1 (add_metadata_list_contract ts l None w) eq_refl).
Defined.

Lemma query_existing_table_witness :
  let table := [mk_record 1 "a" "uuid-0" None] in
  let w := mk_world Demo.providers {[ "memory" := table ]} "default" [] 1 in
  fast_tables w !! name_or None LanceDBMemory.table_name = Some table /\
  exists results,
    LanceDBMemory.query ["x"; "yz"] None 5 w = (Ok results, w) /\
    List.length results = List.length ["x"; "yz"] /\
    results = map (fun q => table_search q 5 table)
                  (compute_source_embeddings ["x"; "yz"]).
Proof.
  intros table w. split; [reflexivity|].
  exact (query_existing_table ["x"; "yz"] None 5%Z w table eq_refl).
Defined.

Lemma reset_keeps_other_tables_witness :
  let w := mk_world Demo.providers
             {[ "notes" := [mk_record 1 "a" "uuid-0" None] ]} "default" [] 1 in
  ("notes" <> LanceDBMemory.table_name /\ "notes" <> "") /\
  (fast_tables (snd (LanceDBMemory.reset w)) !! "notes" =
     fast_tables w !! "notes" /\
   fast_tables (snd (HybridMemory.reset false w)) !! "notes" =
     fast_tables w !! "notes" /\
   fst (LanceDBMemory.count (Some "notes") (snd (HybridMemory.reset false w))) =
     fst (LanceDBMemory.count (Some "notes") w)).
Proof.
  intros w.
  assert ("notes" <> LanceDBMemory.table_name) as H1 by discriminate.
  assert ("notes" <> "") as H2 by discriminate.
  split; [split; assumption|].
  exact (reset_keeps_other_tables "notes" w H1 H2).
Defined.

Lemma missing_table_policy_witness :
  let w := Demo.empty_world [] in
  fast_tables w !! name_or None LanceDBMemory.table_name = None /\
  (LanceDBMemory.list_all_keys None w = (Ok [], w) /\
   LanceDBMemory.get "uuid-0" None w = (Ok [], w) /\
   LanceDBMemory.get_by_metadata "source" "notes" None 5 w = (Ok [], w) /\
   LanceDBMemory.count None w = (Ok O, w) /\
   LanceDBMemory.delete "uuid-0" None w = (Ok (Some true), w) /\
   LanceDBMemory.delete_by_metadata "source" "notes" None w =
     (Ok (Some true), w) /\
   LanceDBMemory.drop None w = (Ok (Some true), w)).
Proof.
  intros w. split; [reflexivity|].
  exact (missing_table_policy None "uuid-0" "source" "notes" 5%Z w eq_refl).
Defined.

Lemma lookups_are_bounded_witness :
  let w := mk_world Demo.providers
             {[ "memory" := [mk_record 1 "a" "uuid-0" None] ]} "default" [] 1 in
  (0 <= 5)%Z /\
  exists hits,
    LanceDBMemory.get_by_metadata "source" "notes" None 5 w = (Ok hits, w) /\
    List.length hits <= Z.to_nat 5 /\
    forall r, r ∈ hits ->
      r ∈ rows (name_or None LanceDBMemory.table_name) w /\
      sql_where ("metadata." +:+ "source" +:+ " = '" +:+ "notes" +:+ "'") r =
        true.
Proof.
  intros w. assert (0 <= 5)%Z as Hn by lia. split; [exact Hn|].
  exact (proj2 (lookups_are_bounded "uuid-0" "source" "notes" None 5%Z w) Hn).
Defined.

Lemma last_n_needs_timestamps_witness :
  let x := mk_item "m1" "ran the baseline" None (Some "") (Some "") in
  let w := Demo.empty_world
             [Demo.dated "m0" "set up" "2024-01-01"; x] in
  (x ∈ take (Z.to_nat 1000) (slow_items w) /\
   (i_updated_at x = None \/ i_updated_at x = Some "") /\
   (i_created_at x = None \/ i_created_at x = Some "") /\
   exists e, fromisoformat "" = Raise e) /\
  exists e, HybridMemory.last_n_consolidate 1 1000 w = (Raise e, w).
Proof.
  intros x w.
  assert (x ∈ take (Z.to_nat 1000) (slow_items w)) as Hx
    by (right; left).
  assert (i_updated_at x = None \/ i_updated_at x = Some "") as Hupdated
    by (right; reflexivity).
  assert (i_created_at x = None \/ i_created_at x = Some "") as Hcreated
    by (right; reflexivity).
  assert (exists e, fromisoformat "" = Raise e) as Hempty
    by (exists ValueError; reflexivity).
  split; [repeat split; assumption|].
  exact (last_n_needs_timestamps 1%Z 1000%Z w x Hx Hupdated Hcreated Hempty).
Defined.

Lemma top_k_needs_the_key_witness :
  let x := mk_item "m2" "tuned the learning rate"
                   (Some {[ "owner" := VStr "ana" ]}) None None in
  let w := Demo.empty_world [Demo.ranked "m1" "ran the baseline" 1; x] in
  let pulled := take (Z.to_nat 1000) (slow_items w) in
  ((forall y, y ∈ pulled -> is_Some (i_metadata y)) /\
   2 <= List.length pulled /\ x ∈ pulled /\
   i_metadata x = Some {[ "owner" := VStr "ana" ]} /\
   ({[ "owner" := VStr "ana" ]} : metadata) !! "priority" = None) /\
  HybridMemory.top_k_consolidate 1 "priority" true 1000 w =
    (Raise TypeError, w).
Proof.
  intros x w pulled.
  assert (forall y, y ∈ pulled -> is_Some (i_metadata y)) as Hmeta.
  { intros y Hy. vm_compute in Hy.
    repeat (apply elem_of_cons in Hy as [->|Hy]); [eexists; reflexivity..|].
    apply elem_of_nil in Hy. destruct Hy. }
  assert (2 <= List.length pulled) as Hlen by (vm_compute; lia).
  assert (x ∈ pulled) as Hx by (right; left).
  assert (({[ "owner" := VStr "ana" ]} : metadata) !! "priority" = None)
    as Hkey by reflexivity.
  split; [repeat split; assumption|].
  exact (proj1 (top_k_needs_the_key 1%Z "priority" true 1000%Z w)
           x _ Hmeta Hlen Hx eq_refl Hkey).
Defined.

Lemma consolidation_twice_duplicates_witness :
  let jan := Demo.dated "m1" "ran the baseline" "2024-01-01" in
  let mar := Demo.dated "m2" "tuned the learning rate" "2024-03-01" in
  let w := Demo.empty_world [jan; mar] in
  let w1 := snd (HybridMemory.last_n_consolidate 1 1000 w) in
  HybridMemory.last_n_consolidate 1 1000 w = (Ok [mar], w1) /\
  exists w2,
    HybridMemory.last_n_consolidate 1 1000 w1 = (Ok [mar], w2) /\
    map r_text (rows LanceDBMemory.table_name w2) =
      map r_text (rows LanceDBMemory.table_name w) ++
      map i_memory [mar] ++ map i_memory [mar].
Proof.
  intros jan mar w w1.
  assert (HybridMemory.last_n_consolidate 1 1000 w = (Ok [mar], w1)) as Hrun
    by reflexivity.
  split; [exact Hrun|].
  exact (proj1 (consolidation_twice_duplicates 1%Z 1%Z 1000%Z "priority" false
                  w w1 [mar]) Hrun).
Defined.

Lemma consolidation_of_nothing_witness :
  let w := Demo.empty_world [] in
  slow_items w = [] /\
  (HybridMemory.last_n_consolidate 3 1000 w = (Ok [], w) /\
   HybridMemory.top_k_consolidate 3 "priority" true 1000 w = (Ok [], w)).
Proof.
  intros w. split; [reflexivity|].
  exact (consolidation_of_nothing 3%Z 3%Z 1000%Z "priority" true w eq_refl).
Defined.

Lemma consolidation_selection_bounds_witness :
  let jan := Demo.dated "m1" "ran the baseline" "2024-01-01" in
  let mar := Demo.dated "m2" "tuned the learning rate" "2024-03-01" in
  let w := Demo.empty_world [jan; mar] in
  let w' := snd (HybridMemory.last_n_consolidate 5 1000 w) in
  let pulled := take (Z.to_nat 1000) (slow_items w) in
  (HybridMemory.last_n_consolidate 5 1000 w = (Ok [mar; jan], w') /\
   5%Z = 5%Z \/
   HybridMemory.top_k_consolidate 1 "priority" false 1000 w =
     (Ok [mar; jan], w') /\ 5%Z = 1%Z) /\
  ([mar; jan] ⊆+ pulled /\
   ((0 <= 5)%Z ->
    List.length [mar; jan] = min (Z.to_nat 5) (List.length pulled)) /\
   ((Z.of_nat (List.length pulled) <= 5)%Z -> [mar; jan] ≡ₚ pulled) /\
   ((5 < 0)%Z ->
    List.length [mar; jan] = List.length pulled - Z.to_nat (- 5))).
Proof.
  intros jan mar w w' pulled.
  assert (HybridMemory.last_n_consolidate 5 1000 w = (Ok [mar; jan], w'))
    as Hrun by reflexivity.
  split; [left; split; [exact Hrun|reflexivity]|].
  exact (consolidation_selection_bounds 5%Z 1%Z 1000%Z "priority" false
           w w' [mar; jan] 5%Z (or_introl (conj Hrun eq_refl))).
Defined.

Lemma demo_uuid_inj : Inj (=) (=) Demo.uuid.
Proof.
  intros a b Hab. unfold Demo.uuid in Hab. simpl in Hab.
  injection Hab as Hab. apply (inj pretty). exact Hab.
Defined.

Lemma ids_stay_unique_witness :
  let w := Demo.empty_world [Demo.dated "m1" "ran the baseline" "2024-01-01"] in
  let tn := name_or None LanceDBMemory.table_name in
  Inj (=) (=) (uuid4 (Providers := Demo.providers)) /\
  (fast_tables w !! tn = None -> drawn_ids tn w) /\
  (drawn_ids tn w -> NoDup (map r_id (rows tn w))) /\
  (drawn_ids tn w ->
   drawn_ids tn
     (snd (LanceDBMemory.add (TextsList ["a"; "b"]) MetaNone None None w))) /\
  (drawn_ids LanceDBMemory.table_name w ->
   drawn_ids LanceDBMemory.table_name
     (snd (HybridMemory.last_n_consolidate 1 1000 w)) /\
   drawn_ids LanceDBMemory.table_name
     (snd (HybridMemory.top_k_consolidate 1 "priority" false 1000 w))).
Proof.
  intros w tn. split; [exact demo_uuid_inj|].
  exact (ids_stay_unique (TextsList ["a"; "b"]) MetaNone None 1%Z 1%Z 1000%Z
           "priority" false w demo_uuid_inj).
Defined.

Lemma hybrid_query_fast_shape_witness :
  let w := Demo.empty_world [] in
  fast_tables w !! LanceDBMemory.table_name = None /\
  HybridMemory.query "what changed" 5 true w = (Ok [], w).
Proof.
  intros w. split; [reflexivity|].
  exact (proj1 (hybrid_query_fast_shape "what changed" 5%Z w) eq_refl).
Defined.

Lemma load_model_dispatch_witness :
  let get_config := fun _ : string =>
    ({[ "platform" := "Ollama" ]} : gmap string string) in
  let l := MleModel.ObservableModel
             (Some (MleModel.OllamaModel (Some "llama3") None)) in
  MleModel.load_model get_config "proj" (Some "llama3") true = Ok l /\
  (l = MleModel.ObservableModel (MleModel.wrapped l) /\
   exists p,
     get_config "proj" !! "platform" = Some p /\
     MleModel.platform_of (MleModel.OllamaModel (Some "llama3") None) = p /\
     MleModel.model_name_of (MleModel.OllamaModel (Some "llama3") None) =
       Some "llama3").
Proof.
  intros get_config l.
  assert (MleModel.load_model get_config "proj" (Some "llama3") true = Ok l)
    as Hrun by reflexivity.
  split; [exact Hrun|].
  exact (load_model_dispatch get_config "proj" (Some "llama3") true l Hrun).
Defined.

Lemma load_model_raises_iff_witness :
  let get_config := fun _ : string =>
    ({[ "platform" := "Claude" ]} : gmap string string) in
  MleModel.load_model get_config "proj" None false = Raise KeyError.
Proof.
  intros get_config.
  apply (proj2 (load_model_raises_iff get_config "proj" None false KeyError)).
  split; [reflexivity|]. right. exists "Claude".
  split; [reflexivity|]. split; [|reflexivity].
  right; left.
Defined.

Lemma embedding_follows_platform_witness :
  let get_config := fun _ : string =>
    (<[ "api_key" := "sk-1" ]> {[ "platform" := "OpenAI" ]}
       : gmap string string) in
  let l := MleModel.Bare (Some (MleModel.OpenAIModel "sk-1" None)) in
  MleModel.load_model get_config "proj" None false = Ok l /\
  LanceDBMemory.__init__ (get_config "proj") =
    Ok (LanceDBMemory.OpenAIEmbedding "sk-1").
Proof.
  intros get_config l.
  assert (MleModel.load_model get_config "proj" None false = Ok l)
    as Hrun by reflexivity.
  split; [exact Hrun|].
  exact (embedding_follows_platform get_config "proj" None false l Hrun).
Defined.

Lemma summarize_history_witness :
  let model_query := fun _ : list SummaryAgent.chat => Ok "not json" in
  let json_loads := fun _ : string => @Raise unit ValueError in
  let summarize :=
    SummaryAgent.summarize (fun _ => "readme") (fun _ _ => []) (fun _ _ => [])
      model_query unit json_loads in
  let a := SummaryAgent.__init__ "sys" "json" "org/repo" in
  let user :=
    SummaryAgent.mk_chat "user"
      (SummaryAgent.process_knowledge (fun _ => "readme") (fun _ _ => [])
         (fun _ _ => []) a) in
  let asked := SummaryAgent.chat_history a ++ [user] in
  model_query asked = Ok "not json" /\
  (fst (summarize a) = json_loads "not json" /\
   SummaryAgent.chat_history (snd (summarize a)) =
     asked ++ [SummaryAgent.mk_chat "assistant" "not json"]).
Proof.
  intros model_query json_loads summarize a user asked.
  split; [reflexivity|].
  exact (proj2 (proj2 (summarize_history (fun _ => "readme") (fun _ _ => [])
                         (fun _ _ => []) model_query unit json_loads a))
           "not json" eq_refl).
Defined.

Lemma summarize_times_history_witness :
  let model_query := fun _ : list SummaryAgent.chat => Ok "not json" in
  let json_loads := fun _ : string => @Raise unit ValueError in
  let a := SummaryAgent.__init__ "sys" "json" "org/repo" in
  (forall h, exists text, model_query h = Ok text) /\
  map SummaryAgent.role
    (SummaryAgent.chat_history
       (SummaryAgent.summarize_times (fun _ => "readme") (fun _ _ => [])
          (fun _ _ => []) model_query unit json_loads 2 a)) =
    "system" :: List.concat (replicate 2 ["user"; "assistant"]).
Proof.
  intros model_query json_loads a.
  assert (forall h, exists text, model_query h = Ok text) as Hq
    by (intros h; exists "not json"; reflexivity).
  split; [exact Hq|].
  exact (proj2 (summarize_times_history "sys" "json" (fun _ => "readme")
                  (fun _ _ => []) (fun _ _ => []) model_query unit json_loads
                  2 "org/repo") Hq).
Defined.

Lemma query_after_consolidation_witness :
  let mar := Demo.dated "m2" "tuned the learning rate" "2024-03-01" in
  let w := Demo.empty_world [mar] in
  let w' := snd (HybridMemory.last_n_consolidate 1 1000 w) in
  ((HybridMemory.last_n_consolidate 1 1000 w = (Ok [mar], w') \/
    HybridMemory.top_k_consolidate 1 "priority" false 1000 w =
      (Ok [mar], w')) /\ [mar] <> []) /\
  (LanceDBMemory.count None w' =
     (Ok (List.length (rows LanceDBMemory.table_name w) +
          List.length [mar]), w') /\
   exists v table,
     compute_source_embeddings ["what changed"] = [v] /\
     fast_tables w' !! LanceDBMemory.table_name = Some table /\
     HybridMemory.query "what changed" 5 true w' =
       (Ok [HybridMemory.FastResults (table_search v 5 table)], w')).
Proof.
  intros mar w w'.
  assert (HybridMemory.last_n_consolidate 1 1000 w = (Ok [mar], w')) as Hrun
    by reflexivity.
  assert ([mar] <> []) as Hsel by discriminate.
  split; [split; [left; exact Hrun|exact Hsel]|].
  exact (query_after_consolidation 1%Z 1%Z 1000%Z "priority" false w w' [mar]
           "what changed" 5%Z (or_introl Hrun) Hsel).
Defined.

Lemma consolidation_after_reset_witness :
  let w := mk_world Demo.providers
             {[ "memory" := [mk_record 1 "a" "uuid-0" None] ]} "default"
             [Demo.dated "m1" "ran the baseline" "2024-01-01"] 1 in
  let w' := snd (HybridMemory.reset true w) in
  true = true /\ fast_tables w' = fast_tables w.
Proof.
  intros w w'. split; [reflexivity|].
  exact (proj2 (proj2 (consolidation_after_reset true 1%Z 1%Z 1000%Z
                         "priority" false w)) eq_refl).
Defined.
